(** * reddwarf.common.wsgi: content negotiation, version routing,
      serialisation and fault mapping

    A shallow embedding of [reddwarf/common/wsgi.py].  Python dictionaries
    whose iteration order is observable are association lists, the others
    are [gmap]s; exceptions and the [LOG] calls are threaded through a small
    logging/error monad. *)

From Stdlib Require Import ZArith Ascii String.
From stdpp Require Import gmap strings list fin_maps pretty.

Local Open Scope Z_scope.
Set Warnings "-register-all".

(** ** Python string primitives used by the module *)

Module PyStr.

(** [s.rsplit(sep, 1)]: one split at the last occurrence of [sep]; the whole
    string alone when [sep] does not occur. *)
Fixpoint rsplit1 (sep : ascii) (s : string) : list string :=
  match s with
  | EmptyString => [EmptyString]
  | String c s' =>
      match rsplit1 sep s' with
      | [t] => if decide (c = sep) then [EmptyString; t] else [String c t]
      | h :: rest => String c h :: rest
      | [] => []
      end
  end.

(** Occurrence of a character in a string. *)
Fixpoint mem (c : ascii) (s : string) : bool :=
  match s with
  | EmptyString => false
  | String d s' => if decide (d = c) then true else mem c s'
  end.

(** [s.split(sep)] for a non-empty separator: left-to-right, non-overlapping.
    [skip] counts the characters of the separator occurrence still to be
    stepped over, [cur] is the piece being accumulated. *)
Fixpoint split_go (sep s : string) (skip : nat) (cur : string) : list string :=
  match s with
  | EmptyString => [cur]
  | String c s' =>
      match skip with
      | S n => split_go sep s' n cur
      | O =>
          if String.prefix sep s
          then cur :: split_go sep s' (String.length sep - 1) EmptyString
          else split_go sep s' 0 (cur +:+ String c EmptyString)
      end
  end.

Definition split (sep s : string) : list string := split_go sep s 0 EmptyString.

(** [sub in s]: substring test. *)
Fixpoint contains (sub s : string) : bool :=
  String.prefix sub s ||
  match s with
  | EmptyString => false
  | String _ s' => contains sub s'
  end.

Definition is_upper (c : ascii) : bool :=
  (65 <=? nat_of_ascii c)%nat && (nat_of_ascii c <=? 90)%nat.

Definition lower_char (c : ascii) : ascii :=
  if is_upper c then ascii_of_nat (nat_of_ascii c + 32) else c.

(** [s.lower()] on a byte string. *)
Fixpoint lower (s : string) : string :=
  match s with
  | EmptyString => EmptyString
  | String c s' => String (lower_char c) (lower s')
  end.

Definition is_digit (c : ascii) : bool :=
  (48 <=? nat_of_ascii c)%nat && (nat_of_ascii c <=? 57)%nat.

(** The part of [s] in front of its suffix [rest]. *)
Definition consumed (s rest : string) : string :=
  String.substring 0 (String.length s - String.length rest) s.

End PyStr.

(** ** Exceptions, logging and the effect monad *)

(** A [webob.exc] class: its [__name__] and its [code]. *)
Record http_class := HttpClass { hc_name : string; hc_code : Z }.

(** An instance of a [webob.exc] class; [body] and [content_type] are the
    response attributes that [Fault.__call__] assigns. *)
Record http_exc := HttpExc {
  exc_cls : http_class;
  detail : option string;
  body : string;
  content_type : option string }.

Definition status_int (e : http_exc) : Z := hc_code (exc_cls e).

(** [cls()] and [cls(detail, request=request)]. *)
Definition http_new (cls : http_class) (d : option string) : http_exc :=
  {| exc_cls := cls; detail := d; body := EmptyString; content_type := None |}.

Definition HTTPBadRequest := HttpClass "HTTPBadRequest" 400.
Definition HTTPUnauthorized := HttpClass "HTTPUnauthorized" 401.
Definition HTTPForbidden := HttpClass "HTTPForbidden" 403.
Definition HTTPNotFound := HttpClass "HTTPNotFound" 404.
Definition HTTPNotAcceptable := HttpClass "HTTPNotAcceptable" 406.
Definition HTTPConflict := HttpClass "HTTPConflict" 409.
Definition HTTPRequestEntityTooLarge := HttpClass "HTTPRequestEntityTooLarge" 413.
Definition HTTPUnprocessableEntity := HttpClass "HTTPUnprocessableEntity" 422.
Definition HTTPInternalServerError := HttpClass "HTTPInternalServerError" 500.
Definition HTTPServerError := HttpClass "HTTPServerError" 500.

(** Which [except] clause of [execute_action] an exception class falls under:
    a subclass of [exception.ReddwarfError], of [webob.exc.HTTPError], or any
    other [Exception]. *)
Inductive exc_family := ReddwarfFamily | HTTPErrorFamily | OtherFamily.

(** An exception class, the key of the inverted exception map. *)
Record exc_class := ExcClass { family : exc_family; cls_name : string }.

(** A raised exception instance. *)
Inductive py_exception :=
| ReddwarfError (cls : string) (msg : string)
| HTTPError (e : http_exc)
| OtherException (cls : string) (msg : string).

(** [type(error)]. *)
Definition type_of (e : py_exception) : exc_class :=
  match e with
  | ReddwarfError c _ => ExcClass ReddwarfFamily c
  | HTTPError h => ExcClass HTTPErrorFamily (hc_name (exc_cls h))
  | OtherException c _ => ExcClass OtherFamily c
  end.

(** [str(error)]; for a webob exception the detail, as [Exception.__init__]
    received it. *)
Definition str_of (e : py_exception) : string :=
  match e with
  | ReddwarfError _ m => m
  | HTTPError h => default EmptyString (detail h)
  | OtherException _ m => m
  end.

Definition RuntimeError (msg : string) := OtherException "RuntimeError" msg.
Definition KeyError (key : string) := OtherException "KeyError" key.

#[global] Instance http_class_eq_dec : EqDecision http_class.
Proof. solve_decision. Defined.
#[global] Instance exc_family_eq_dec : EqDecision exc_family.
Proof. solve_decision. Defined.
#[global] Instance exc_class_eq_dec : EqDecision exc_class.
Proof. solve_decision. Defined.

Definition exc_family_code (f : exc_family) : nat :=
  match f with ReddwarfFamily => 0 | HTTPErrorFamily => 1 | OtherFamily => 2 end%nat.
Definition exc_family_of_code (n : nat) : exc_family :=
  match n with O => ReddwarfFamily | S O => HTTPErrorFamily | _ => OtherFamily end.

#[global] Instance exc_class_countable : Countable exc_class.
Proof.
  apply (inj_countable' (λ c, (exc_family_code (family c), cls_name c))
                        (λ p, ExcClass (exc_family_of_code p.1) p.2)).
  by intros [[] ?].
Defined.

Inductive log_level := DEBUG | ERROR | EXCEPTION.

(** What the [LOG] calls have written so far, oldest first. *)
Definition log := list (log_level * string).

Inductive outcome (A : Type) :=
| Returned (a : A)
| Raised (e : py_exception).
Arguments Returned {A} a.
Arguments Raised {A} e.

(** A computation that may write to the log and may raise. *)
Definition M (A : Type) : Type := log → outcome A * log.

Definition ret {A} (a : A) : M A := λ l, (Returned a, l).
Definition raise {A} (e : py_exception) : M A := λ l, (Raised e, l).
Definition bind {A B} (m : M A) (k : A → M B) : M B :=
  λ l, match m l with
       | (Returned a, l') => k a l'
       | (Raised e, l') => (Raised e, l')
       end.
Definition try_except {A} (m : M A) (handler : py_exception → M A) : M A :=
  λ l, match m l with
       | (Returned a, l') => (Returned a, l')
       | (Raised e, l') => handler e l'
       end.
Definition LOG (lvl : log_level) (msg : string) : M unit :=
  λ l, (Returned tt, l ++ [(lvl, msg)]).

Notation "'do' x <- m 'in' k" := (bind m (λ x, k))
  (at level 10, x name, m at level 100, k at level 200, only parsing).

(** ** Python values, XML nodes, requests *)

(** A DOM node as [minidom] builds it. *)
Inductive xml_node :=
| Element (tag : string) (attrs : list (string * string))
    (children : list xml_node)
| Text (data : string).

(** The values a body is made of.  A dictionary is the list of its items in
    iteration order; [PObj] is an object exposing [to_xml()], carrying what
    that method returns. *)
Inductive pyval :=
| PStr (s : string)
| PInt (n : Z)
| PDict (items : list (string * pyval))
| PList (items : list pyval)
| PObj (to_xml : xml_node).

Definition dict := list (string * pyval).

(** [d.keys()], [k in d], [d.get(k)] and [d[k] = v] on a dictionary. *)
Definition keys {V} (d : list (string * V)) : list string := d.*1.

Definition dict_lookup {V} (d : list (string * V)) (k : string) : option V :=
  snd <$> (snd <$> list_find (λ kv, kv.1 = k) d).

Fixpoint dict_setitem {V} (d : list (string * V)) (k : string) (v : V)
    : list (string * V) :=
  match d with
  | [] => [(k, v)]
  | (k', v') :: d' =>
      if decide (k' = k) then (k, v) :: d' else (k', v') :: dict_setitem d' k v
  end.

(** [d[k]], raising [KeyError] when the key is absent. *)
Definition dict_getitem {V} (d : list (string * V)) (k : string) : M V :=
  match dict_lookup d k with
  | Some v => ret v
  | None => raise (KeyError k)
  end.

(** [rd_context.ReddwarfContext], as [process_request] fills it. *)
Record ReddwarfContext := {
  auth_tok : string;
  tenant : option string;
  user : option string;
  is_admin : bool;
  limit : option string;
  marker : option string }.

(** A request.  [headers] is keyed by header name ([webob] looks names up
    without regard to case; the names are spelled as the source spells them),
    [params] is the query dictionary after [stringify_keys], and
    [context] is the [environ[CONTEXT_KEY]] slot. *)
Record Request := {
  path : string;
  headers : gmap string string;
  params : gmap string string;
  context : option ReddwarfContext }.

(** [self.accept]: the parsed [Accept] header. *)
Definition accept (self : Request) : option string := headers self !! "ACCEPT".

(** ** Regular expressions as [re] runs them *)

Module Re.

(** The fragment of [re] syntax the module's two patterns use; repetition is
    over single-character classes, [Group] is the named group. *)
Inductive regex :=
| Lit (s : string)
| Class (p : ascii → bool)
| Seq (r1 r2 : regex)
| Opt (r : regex)
| Star (greedy : bool) (p : ascii → bool)
| Plus (greedy : bool) (p : ascii → bool)
| Group (r : regex).

(** [.] matches anything but a newline; [\d] a decimal digit. *)
Definition dot (c : ascii) : bool := negb (Ascii.eqb c "010"%char).
Definition digit (c : ascii) : bool := PyStr.is_digit c.

Fixpoint strip_prefix (p s : string) : option string :=
  match p, s with
  | EmptyString, _ => Some s
  | String a p', String b s' => if Ascii.eqb a b then strip_prefix p' s' else None
  | String _ _, EmptyString => None
  end.

(** Backtracking repetition: the greedy form takes as many characters as it
    can and gives them back one at a time, the lazy form takes one more only
    when the continuation [k] has failed. *)
Fixpoint star_greedy {R} (p : ascii → bool) (s : string)
    (k : string → option R) : option R :=
  match s with
  | String c s' =>
      if p c then
        match star_greedy p s' k with
        | Some r => Some r
        | None => k s
        end
      else k s
  | EmptyString => k s
  end.

Fixpoint star_lazy {R} (p : ascii → bool) (s : string)
    (k : string → option R) : option R :=
  match k s with
  | Some r => Some r
  | None =>
      match s with
      | String c s' => if p c then star_lazy p s' k else None
      | EmptyString => None
      end
  end.

Definition star {R} (greedy : bool) : (ascii → bool) → string →
    (string → option R) → option R :=
  if greedy then star_greedy else star_lazy.

(** [run r s cap k]: match [r] at the front of [s], then continue with [k] on
    the rest; [cap] is the text of the named group so far.  [None] makes the
    caller backtrack. *)
Fixpoint run {R} (r : regex) (s : string) (cap : option string)
    (k : string → option string → option R) : option R :=
  match r with
  | Lit l =>
      match strip_prefix l s with
      | Some s' => k s' cap
      | None => None
      end
  | Class p =>
      match s with
      | String c s' => if p c then k s' cap else None
      | EmptyString => None
      end
  | Seq r1 r2 => run r1 s cap (λ s' cap', run r2 s' cap' k)
  | Opt r1 =>
      match run r1 s cap k with
      | Some x => Some x
      | None => k s cap
      end
  | Star g p => star g p s (λ s', k s' cap)
  | Plus g p =>
      match s with
      | String c s' => if p c then star g p s' (λ s'', k s'' cap) else None
      | EmptyString => None
      end
  | Group r1 => run r1 s cap (λ s' _, k s' (Some (PyStr.consumed s s')))
  end.

(** [pattern.search(s)]: the first start position with a match; the match is
    represented by its named group. *)
Fixpoint search (r : regex) (s : string) : option (option string) :=
  match run r s None (λ _ cap, Some cap) with
  | Some m => Some m
  | None =>
      match s with
      | String _ s' => search r s'
      | EmptyString => None
      end
  end.

(** [\d+\.?\d* ], the body of the named group [version_no] in both patterns. *)
Definition version_no : regex :=
  Group (Seq (Plus true digit) (Seq (Opt (Lit ".")) (Star true digit))).

End Re.

(** The pattern [/v(?P<version_no>\d+\.?\d* )] of [url_version]. *)
Definition versioned_url_re : Re.regex :=
  Re.Seq (Re.Lit "/v") Re.version_no.

(** The pattern of [accept_version],
    [.*?application/vnd.openstack.reddwarf(\+.+?)?;version=(?P<version_no>\d+\.?\d* )];
    the dots of the media type are unescaped in the source and match any
    character. *)
Definition accept_version_re : Re.regex :=
  Re.Seq (Re.Star false Re.dot)
 (Re.Seq (Re.Lit "application/vnd")
 (Re.Seq (Re.Class Re.dot)
 (Re.Seq (Re.Lit "openstack")
 (Re.Seq (Re.Class Re.dot)
 (Re.Seq (Re.Lit "reddwarf")
 (Re.Seq (Re.Opt (Re.Seq (Re.Lit "+") (Re.Plus false Re.dot)))
 (Re.Seq (Re.Lit ";version=")
         Re.version_no))))))).

(** [match.group("version_no") if match else None] *)
Definition group_or_none (m : option (option string)) : option string :=
  match m with
  | Some g => g
  | None => None
  end.

Definition accept_version (self : Request) : option string :=
  let accept_header := default EmptyString (headers self !! "ACCEPT") in
  group_or_none (Re.search accept_version_re accept_header).

Definition url_version (self : Request) : option string :=
  group_or_none (Re.search versioned_url_re (path self)).

(** ** Request.best_match_content_type *)

Section Negotiation.

(** [webob]'s [Accept.best_match(offers)]: the best offer for the request's
    [Accept] header, [None] when no offer is acceptable.  The header is
    [None] when the request carries none. *)
Variable best_match : option string → list string → option string.

(** The [ctypes] dictionary literal. *)
Definition ctypes : list (string * string) :=
  [ ("application/vnd.openstack.reddwarf+json", "application/json");
    ("application/vnd.openstack.reddwarf+xml", "application/xml");
    ("application/json", "application/json");
    ("application/xml", "application/xml") ].

(** [d.get(k, default)] on an association list, [k] possibly [None]. *)
Definition dict_get_default {V} (d : list (string * V)) (k : option string)
    (default : V) : V :=
  match k with
  | Some k =>
      match list_find (λ kv, kv.1 = k) d with
      | Some (_, (_, v)) => v
      | None => default
      end
  | None => default
  end.

Definition best_match_content_type (self : Request) : string :=
  let parts := PyStr.rsplit1 "." (path self) in
  let by_extension :=
    if bool_decide (1 < length parts)%nat then
      match parts !! 1%nat with
      | Some format =>
          if bool_decide (format ∈ ["json"; "xml"])
          then Some ("application/" +:+ format) else None
      | None => None
      end
    else None in
  match by_extension with
  | Some ct => ct
  | None =>
      let bm := best_match (accept self) (ctypes.*1) in
      dict_get_default ctypes bm "application/json"
  end.

End Negotiation.

(** ** Fault *)

Record Fault := MkFault { wrapped_exc : http_exc }.

(** How a field is looked up in the per-element attribute metadata: [k in
    attrs] is key membership when [attrs] is a dictionary and a substring test
    when it is a string (as in the metadata that [Fault.__call__] builds). *)
Inductive attr_spec :=
| AttrDict (names : list string)
| AttrStr (s : string).

Definition attr_in (k : string) (a : attr_spec) : bool :=
  match a with
  | AttrDict names => bool_decide (k ∈ names)
  | AttrStr s => PyStr.contains k s
  end.

(** The serializer metadata: the ['attributes'] and ['plurals'] entries, an
    absent entry being the empty dictionary. *)
Record metadata := Metadata {
  attributes : list (string * attr_spec);
  plurals : list (string * string) }.

Definition code_wrapper : list (Z * http_class) :=
  [ (400, HTTPBadRequest);
    (401, HTTPUnauthorized);
    (403, HTTPUnauthorized);
    (404, HTTPNotFound) ].

Definition resp_codes : list Z := code_wrapper.*1.

Definition named_exceptions : list (string * string) :=
  [ ("HTTPBadRequest", "badRequest");
    ("HTTPUnauthorized", "unauthorized");
    ("HTTPForbidden", "forbidden");
    ("HTTPNotFound", "itemNotFound");
    ("HTTPMethodNotAllowed", "badMethod");
    ("HTTPRequestEntityTooLarge", "overLimit");
    ("HTTPUnsupportedMediaType", "badMediaType");
    ("HTTPInternalServerError", "instanceFault");
    ("HTTPNotImplemented", "notImplemented");
    ("HTTPServiceUnavailable", "serviceUnavailable") ].

(** [name[:1].lower() + name[1:]] *)
Definition lower_first (name : string) : string :=
  match name with
  | EmptyString => EmptyString
  | String c rest => String (PyStr.lower_char c) rest
  end.

Definition _get_error_name (exc : http_exc) : string :=
  let name := hc_name (exc_cls exc) in
  match dict_lookup named_exceptions name with
  | Some n => n
  | None =>
      let name := default EmptyString (last (PyStr.split "HTTP" name)) in
      lower_first name
  end.

(** Truth value of [wrapped_exc.detail]: neither [None] nor empty. *)
Definition truthy (d : option string) : bool :=
  match d with
  | Some (String _ _) => true
  | _ => false
  end.

Section FaultCall.

Variable best_match : option string → list string → option string.

(** [webob]'s class attribute [explanation]. *)
Variable explanation : http_class → string.

(** [openstack_wsgi.XMLDictSerializer(metadata).serialize] and
    [openstack_wsgi.JSONDictSerializer().serialize]. *)
Variable XMLDictSerializer_serialize : metadata → dict → string → string.
Variable JSONDictSerializer_serialize : dict → string → string.

(** The dictionary that [Fault.__call__] hands to the serializer. *)
Definition fault_data (self : Fault) : dict :=
  let fault_name := _get_error_name (wrapped_exc self) in
  let inner := [("code", PInt (status_int (wrapped_exc self)))] in
  let inner :=
    if truthy (detail (wrapped_exc self))
    then dict_setitem inner "message"
           (PStr (default EmptyString (detail (wrapped_exc self))))
    else dict_setitem inner "message"
           (PStr (explanation (exc_cls (wrapped_exc self)))) in
  [(fault_name, PDict inner)].

Definition Fault_call (self : Fault) (req : Request) : M http_exc :=
  let fault_name := _get_error_name (wrapped_exc self) in
  let fault_data := fault_data self in
  let metadata := Metadata [(fault_name, AttrStr "code")] [] in
  let content_type := best_match_content_type best_match req in
  do serializer <- dict_getitem
      [ ("application/xml", XMLDictSerializer_serialize metadata);
        ("application/json", JSONDictSerializer_serialize) ] content_type in
  ret {| exc_cls := exc_cls (wrapped_exc self);
         detail := detail (wrapped_exc self);
         body := serializer fault_data content_type;
         content_type := Some content_type |}.

End FaultCall.

(** ** VersionedURLMap *)

Section VersionedURLMap.

(** The sub-applications of the [paste] URL map, by mount path, and what
    calling an application yields. *)
Context {App Resp : Type}.
Variable call_sub : App → Request → Resp.
Variable call_fault : Fault → Request → Resp.
Variable call_urlmap : gmap string App → Request → Resp.

(** The callable that [__call__] selects. *)
Inductive wsgi_app :=
| SubApp (a : App)
| FaultApp (f : Fault)
| URLMapApp (urlmap : gmap string App).

Definition select_app (urlmap : gmap string App) (req : Request) : wsgi_app :=
  match url_version req, accept_version req with
  | None, Some accept_version =>
      let version := "/v" +:+ accept_version in
      let http_exc :=
        http_new HTTPNotAcceptable (Some "version not supported") in
      default (FaultApp (MkFault http_exc)) (SubApp <$> urlmap !! version)
  | _, _ => URLMapApp urlmap
  end.


End VersionedURLMap.

(** ** Result and the HTTP response *)

(** What a [Result] wraps: the object itself ([raw]) and what its
    [data_for_xml()] and [data_for_json()] methods return, [None] when
    [hasattr] finds no such method.  A plain dictionary has neither. *)
Record payload := Payload {
  raw : pyval;
  data_for_xml : option pyval;
  data_for_json : option pyval }.

Record Result := MkResult { _data : payload; status : Z }.

(** [Result(data)], with the default [status=200]. *)
Definition Result_of_dict (d : dict) : Result :=
  MkResult (Payload (PDict d) None None) 200.

Definition Result_data (self : Result) (serialization_type : string) : pyval :=
  match
    (if bool_decide (serialization_type = "application/xml")
     then data_for_xml (_data self) else None)
  with
  | Some xml => xml
  | None =>
      match data_for_json (_data self) with
      | Some json => json
      | None => raw (_data self)
      end
  end.

(** A [webob.Response]. *)
Record Response := MkResponse {
  resp_status_int : Z;
  _headerlist : list (string * string);
  resp_body : string }.

(** What a controller action hands back to the resource. *)
Inductive action_result :=
| ADict (d : dict)
| AResult (r : Result)
| AFault (f : Fault)
| AResponse (r : Response)
| AOther (v : pyval).

(** [isinstance(action_result, webob.Response)]; [Fault] derives from
    [webob.exc.HTTPException] alone, which is no [Response]. *)
Definition is_webob_response (a : action_result) : bool :=
  match a with
  | AResponse _ => true
  | _ => false
  end.

(** ** Resource *)

Definition _invert_dict_list (exception_dict : list (http_class * list exc_class))
    : gmap exc_class http_class :=
  foldl (λ inverted_dict kv,
           foldl (λ inverted_dict value, <[value := kv.1]> inverted_dict)
                 inverted_dict kv.2)
        ∅ exception_dict.

Definition _get_http_error (model_exception_map : gmap exc_class http_class)
    (error : py_exception) : http_class :=
  default HTTPBadRequest (model_exception_map !! type_of error).

Section Resource.

(** [traceback.format_exc()] for the exception being handled. *)
Variable format_exc : py_exception → string.

(** [super(Resource, self).execute_action(action, request, **action_args)]:
    the controller's action run on the request. *)
Variable super_execute_action : Request → M action_result.

Definition execute_action (model_exception_map : gmap exc_class http_class)
    (has_action : bool) (request : Request) : M action_result :=
  if negb has_action then ret (AFault (MkFault (http_new HTTPNotFound None)))
  else
    try_except
      (do result <- super_execute_action request in
       ret (match result with
            | ADict d => AResult (Result_of_dict d)
            | _ => result
            end))
      (λ error,
         match error with
         | ReddwarfError _ _ =>
             do _ <- LOG DEBUG (format_exc error) in
             let httpError := _get_http_error model_exception_map error in
             ret (AFault (MkFault (http_new httpError (Some (str_of error)))))
         | HTTPError http_error =>
             do _ <- LOG DEBUG (format_exc error) in
             ret (AFault (MkFault http_error))
         | OtherException _ _ =>
             do _ <- LOG EXCEPTION (str_of error) in
             ret (AFault (MkFault
                   (http_new HTTPInternalServerError (Some (str_of error)))))
         end).

(** The test on the first line of [execute_action],
    [getattr(self.controller, action, None) is None], which stands in front
    of the [try].  [action] is the name the route gives, [None] when it
    gives none, and [controller name] tells whether the controller has an
    attribute [name] other than [None].  [getattr] takes a string only: for
    [None] it raises [TypeError], and no handler is around it. *)
Definition controller_lacks (controller : string → bool)
    (action : option string) : M bool :=
  match action with
  | Some name => ret (negb (controller name))
  | None =>
      raise (OtherException "TypeError"
               "getattr(): attribute name must be string")
  end.

(** [execute_action] from its first line on: the test on the controller,
    then the body above with the outcome of the test. *)
Definition execute_action_by_name
    (model_exception_map : gmap exc_class http_class)
    (controller : string → bool) (action : option string)
    (request : Request) : M action_result :=
  do lacks <- controller_lacks controller action in
  execute_action model_exception_map (negb lacks) request.

(** [super(Resource, self).serialize_response(action, action_result, accept)];
    a result of [None] is the method falling off its end. *)
Context {Out : Type}.
Variable super_serialize_response : action_result → M Out.

Definition serialize_response (action_result : action_result) : M (option Out) :=
  try_except
    (do r <- super_serialize_response action_result in ret (Some r))
    (λ ex,
       if negb (is_webob_response action_result) then
         do _ <- LOG ERROR ("unserializable result detected! Exception type: "
                            +:+ cls_name (type_of ex) +:+ " Message: "
                            +:+ str_of ex) in
         raise ex
       else ret None).

End Resource.

(** ** Controller *)

(** Modelled from the spec: the classes of [reddwarf.common.exception] are
    not among the sources.  The entries of the table are the internal error
    kinds that business logic raises, members of the [ReddwarfError] family,
    told apart by their names. *)
Definition reddwarf (name : string) : exc_class := ExcClass ReddwarfFamily name.

Definition exception_map : list (http_class * list exc_class) :=
  [ (HTTPUnprocessableEntity, [ reddwarf "UnprocessableEntity" ]);
    (HTTPUnauthorized, [ reddwarf "Forbidden" ]);
    (HTTPBadRequest,
       [ reddwarf "InvalidModelError";
         reddwarf "BadRequest";
         reddwarf "CannotResizeToSameSize";
         reddwarf "BadValue";
         reddwarf "DatabaseAlreadyExists";
         reddwarf "UserAlreadyExists" ]);
    (HTTPNotFound,
       [ reddwarf "NotFound";
         reddwarf "ComputeInstanceNotFound";
         reddwarf "ModelNotFoundError";
         reddwarf "UserNotFound";
         reddwarf "DatabaseNotFound";
         reddwarf "QuotaResourceUnknown" ]);
    (HTTPConflict, []);
    (HTTPRequestEntityTooLarge,
       [ reddwarf "OverLimit";
         reddwarf "QuotaExceeded";
         reddwarf "VolumeQuotaExceeded" ]);
    (HTTPServerError,
       [ reddwarf "VolumeCreationFailure";
         reddwarf "UpdateGuestError" ]) ].

(** ** ReddwarfXMLDictSerializer *)

(** A Python dictionary display: a later item replaces an earlier one with
    the same key. *)
Definition dict_literal {V} (items : list (string * V)) : list (string * V) :=
  foldl (λ d kv, dict_setitem d kv.1 kv.2) [] items.

Definition CUSTOM_SERIALIZER_METADATA : list (string * attr_spec) :=
  dict_literal
  [ ("instance", AttrDict
       [ "status"; "hostname"; "id"; "name"; "created"; "updated"; "host";
         "server_id"; "local_id"; "task_description"; "deleted";
         "deleted_at"; "tenant_id" ]);
    ("volume", AttrDict [ "size"; "used"; "id" ]);
    ("flavor", AttrDict [ "id"; "ram"; "name" ]);
    ("link", AttrDict [ "href"; "rel" ]);
    ("database", AttrDict [ "name" ]);
    ("user", AttrDict [ "name"; "password" ]);
    ("account", AttrDict [ "id" ]);
    ("host", AttrDict
       [ "instanceCount"; "name"; "usedRAM"; "totalRAM"; "percentUsed" ]);
    ("capacity", AttrDict [ "available"; "total" ]);
    ("provision", AttrDict [ "available"; "total"; "percent" ]);
    ("device", AttrDict [ "used"; "name"; "type" ]);
    ("account", AttrDict [ "id"; "num_instances" ]);
    ("quotas", AttrDict [ "instances"; "volumes" ]);
    ("guest_status", AttrDict [ "state_description" ]);
    ("diagnostics", AttrDict
       [ "vmHwm"; "vmPeak"; "vmSize"; "threads"; "version"; "vmRss";
         "fdSize" ]);
    ("root_history", AttrDict [ "enabled"; "id"; "user" ]) ].

(** [node.appendChild(child)]; [minidom] refuses children on a text node,
    with a message made of the node name [#text]. *)
Definition appendChild (node child : xml_node) : M xml_node :=
  match node with
  | Element tag attrs children => ret (Element tag attrs (children ++ [child]))
  | Text _ => raise (OtherException "HierarchyRequestErr"
                       "#text nodes cannot have children")
  end.

Module ReddwarfXMLDictSerializer.

Section XMLDictSerializer.

(** [str(v)] of a value and the [%s] rendering of a dictionary. *)
Variable py_str : pyval → string.
Variable py_repr : dict → string.

(** The singular tag under which the base serializer renders the items of a
    sequence field. *)
Variable singular : metadata → string → string.

(** [XMLDictSerializer.to_xml_string(node)]. *)
Variable to_xml_string : xml_node → string.

(** Modelled from the spec: [openstack_wsgi.XMLDictSerializer._to_xml_node],
    the generic tree walk of the base class, is not among the sources.  The
    element is named [nodename]; a nested mapping contributes, per item, an
    attribute when the field is listed in the attribute metadata of
    [nodename] and a child element otherwise; a sequence contributes one
    child per item under the singular tag; any other value is the element's
    text.  [self] is the method the walk recurses through, so that an
    overriding [_to_xml_node] is used for the children. *)
Definition base_to_xml_node (self : metadata → string → pyval → xml_node)
    (metadata : metadata) (nodename : string) (data : pyval) : xml_node :=
  match data with
  | PList items =>
      Element nodename []
        (map (self metadata (singular metadata nodename)) items)
  | PDict items =>
      let attrs :=
        default (AttrDict []) (dict_lookup (attributes metadata) nodename) in
      Element nodename
        (omap (λ kv, if attr_in kv.1 attrs
                     then Some (kv.1, py_str kv.2) else None) items)
        (omap (λ kv, if attr_in kv.1 attrs
                     then None else Some (self metadata kv.1 kv.2)) items)
  | _ => Element nodename [] [Text (py_str data)]
  end.

Fixpoint _to_xml_node (metadata : metadata) (nodename : string)
    (data : pyval) {struct data} : xml_node :=
  let metadata := Metadata CUSTOM_SERIALIZER_METADATA (plurals metadata) in
  match data with
  | PObj to_xml => to_xml
  | _ => base_to_xml_node _to_xml_node metadata nodename data
  end.

(** The [for key in data] loop of [default], on the keys still to visit. *)
Fixpoint default_loop (data : dict) (ks : list string) (has_links : bool)
    (root_key : option string) : M (bool * option string) :=
  match ks with
  | [] => ret (has_links, root_key)
  | key :: ks' =>
      if decide (key = "links") then default_loop data ks' true root_key
      else
        match root_key with
        | None => default_loop data ks' has_links (Some key)
        | Some _ =>
            let msg := "Xml issue: multiple root keys found in dict!: "
                       +:+ py_repr data in
            do _ <- LOG ERROR msg in
            raise (RuntimeError msg)
        end
  end.

Definition default (self_metadata : metadata) (data : dict) : M string :=
  do st <- default_loop data (keys data) false None in
  match st with
  | (has_links, None) =>
      let msg := "Missing root key in dict: " +:+ py_repr data in
      do _ <- LOG ERROR msg in
      raise (RuntimeError msg)
  | (has_links, Some root_key) =>
      do root_val <- dict_getitem data root_key in
      let node := _to_xml_node self_metadata root_key root_val in
      do node <-
        (if has_links : bool then
           do links_val <- dict_getitem data "links" in
           let links_node := _to_xml_node self_metadata "links" links_val in
           appendChild node links_node
         else ret node) in
      ret (to_xml_string node)
  end.

End XMLDictSerializer.

End ReddwarfXMLDictSerializer.

(** ** ReddwarfResponseSerializer *)

(** The [data] argument of the response serializer. *)
Inductive body_data :=
| BResult (r : Result)
| BOther (v : pyval).

(** The dictionary that [serialize_body] passes on to the superclass. *)
Definition body_for (data : body_data) (content_type : string) : pyval :=
  match data with
  | BResult r => Result_data r content_type
  | BOther v => v
  end.

Section ResponseSerializer.

Context {Action : Type}.

(** [openstack_wsgi.ResponseSerializer.serialize_body] and
    [serialize_headers], which pick the body serializer for the content
    type and fill the response in. *)
Variable super_serialize_body :
  Response → pyval → string → Action → M Response.
Variable super_serialize_headers :
  Response → body_data → Action → M Response.

Definition serialize_body (response : Response) (data : body_data)
    (content_type : string) (action : Action) : M Response :=
  let data := body_for data content_type in
  super_serialize_body response data content_type action.

Definition serialize_headers (response : Response) (data : body_data)
    (action : Action) : M Response :=
  do response <- super_serialize_headers response data action in
  match data with
  | BResult r =>
      ret (MkResponse (status r) (_headerlist response) (resp_body response))
  | BOther _ => ret response
  end.

End ResponseSerializer.

(** ** ContextMiddleware *)

(** [dict([(key, params[key]) for key in params.keys()
           if key in [limit, marker]])] *)
Definition _extract_limits (params : gmap string string) : gmap string string :=
  filter (λ kv, kv.1 ∈ ["limit"; "marker"]) params.

(** The [for role in roles] loop with its [break]. *)
Fixpoint admin_loop (admin_roles roles : list string) : bool :=
  match roles with
  | [] => false
  | role :: roles' =>
      if bool_decide (PyStr.lower role ∈ admin_roles) then true
      else admin_loop admin_roles roles'
  end.

Section ContextMiddleware.

(** [CONF.admin_roles], read when the middleware is built. *)
Variable admin_roles : list string.

(** [process_request] returns nothing; its effect is the context stored in
    the request's environment, so the embedding returns the request.
    [request.headers] is webob's view of the WSGI environment: subscripting
    it with an absent header raises [KeyError] of the environment key, here
    [HTTP_X_AUTH_TOKEN]. *)
Definition process_request (request : Request) : M Request :=
  let tenant_id := headers request !! "X-Tenant-Id" in
  do auth_tok <-
    match headers request !! "X-Auth-Token" with
    | Some tok => ret tok
    | None => raise (KeyError "HTTP_X_AUTH_TOKEN")
    end in
  let user := headers request !! "X-User" in
  let roles :=
    PyStr.split "," (default EmptyString (headers request !! "X-Role")) in
  let is_admin := admin_loop admin_roles roles in
  let limits := _extract_limits (params request) in
  let context :=
    {| auth_tok := auth_tok;
       tenant := tenant_id;
       user := user;
       is_admin := is_admin;
       limit := limits !! "limit";
       marker := limits !! "marker" |} in
  ret {| path := path request;
         headers := headers request;
         params := params request;
         context := Some context |}.

(** Modelled from the spec: [openstack_wsgi.Middleware.__call__], which runs
    [process_request] in front of the wrapped application, is not among the
    sources.  The request reaches the application only once the context has
    been extracted. *)
Definition Middleware_call {Resp} (application : Request → M Resp)
    (req : Request) : M Resp :=
  do req <- process_request req in
  application req.

End ContextMiddleware.

(** ** FaultWrapper *)

(** The [for (header, value) in resp._headerlist] loop: the fault to return
    from inside the loop, if any. *)
Fixpoint headers_loop (resp : Response) (hs : list (string * string))
    : M (option Fault) :=
  match hs with
  | [] => ret None
  | (header, value) :: hs' =>
      if bool_decide (header = "Content-Type") &&
         bool_decide (value = "text/plain; charset=UTF-8")
      then
        match list_find (λ kv, kv.1 = resp_status_int resp) code_wrapper with
        | Some (_, (_, cls)) => ret (Some (MkFault (http_new cls None)))
        | None => raise (KeyError (pretty (resp_status_int resp)))
        end
      else headers_loop resp hs'
  end.

(** What [FaultWrapper.__call__] returns: a fault or the downstream
    response. *)
Inductive wrapped_response :=
| WFault (f : Fault)
| WResp (r : Response).

Section FaultWrapper.

(** [req.get_response(self.application)]. *)
Variable application : Request → M Response.

Definition FaultWrapper_call (req : Request) : M wrapped_response :=
  try_except
    (do resp <- application req in
     if bool_decide (resp_status_int resp ∈ resp_codes) then
       do found <- headers_loop resp (_headerlist resp) in
       match found with
       | Some fault => ret (WFault fault)
       | None => ret (WResp resp)
       end
     else ret (WResp resp))
    (λ ex,
       do _ <- LOG EXCEPTION ("Caught error: " +:+ str_of ex) in
       let exc := http_new HTTPInternalServerError None in
       ret (WFault (MkFault exc))).

End FaultWrapper.

(** ** Vocabulary of the properties *)

(** What the header negotiation of [best_match_content_type] yields. *)
Definition negotiated (best_match : option string → list string → option string)
    (req : Request) : string :=
  dict_get_default ctypes (best_match (accept req) (keys ctypes))
    "application/json".

(** A version segment starts here: [/v] and then a digit. *)
Definition version_segment_at (s : string) : Prop :=
  ∃ d rest, Re.digit d = true ∧ s = "/v" +:+ String d rest.

(** The path carries a version segment: [/v] followed by a digit, anywhere. *)
Definition has_version_segment (path : string) : Prop :=
  ∃ pre d rest, Re.digit d = true ∧ path = pre +:+ "/v" +:+ String d rest.

(** A non-empty run of decimal digits, and a text that does not go on with
    a digit or a dot. *)
Fixpoint all_digits (s : string) : bool :=
  match s with
  | EmptyString => true
  | String c s' => Re.digit c && all_digits s'
  end.

Definition is_number (s : string) : bool :=
  match s with
  | EmptyString => false
  | String _ _ => all_digits s
  end.


(** The inversion of [_invert_dict_list], started from an arbitrary
    dictionary [m] instead of the empty one. *)
Definition invert_from (m : gmap exc_class http_class)
    (table : list (http_class * list exc_class)) : gmap exc_class http_class :=
  foldl (λ inverted_dict kv,
           foldl (λ inverted_dict value, <[value := kv.1]> inverted_dict)
                 inverted_dict kv.2)
        m table.

(** The header that marks a generic plain-text error page. *)
Definition plain_text_error_page (resp : Response) : Prop :=
  ("Content-Type", "text/plain; charset=UTF-8") ∈ _headerlist resp.

(** The roles sent in the [X-Role] header. *)
Definition roles_of (request : Request) : list string :=
  PyStr.split "," (default EmptyString (headers request !! "X-Role")).

(** Two role names that differ at most in the case of their letters. *)
Definition same_role_ignoring_case (a b : string) : Prop :=
  PyStr.lower a = PyStr.lower b.

(** The keys of a mapping other than [links]. *)
Definition non_links_keys (data : dict) : list string :=
  filter (λ k, k ≠ "links") (keys data).

(** ** Sample inputs *)

(** A request with the given path and headers, no query parameters and no
    context yet. *)
Definition request_of (p : string) (hs : list (string * string)) : Request :=
  {| path := p; headers := list_to_map hs; params := ∅; context := None |}.

(** The routing scenario of the specification: no version in the path,
    version 2 in the header, applications mounted at [/v1] and [/v2]. *)
Definition sample_versioned_request : Request :=
  request_of "/instances"
    [("ACCEPT", "application/vnd.openstack.reddwarf+json;version=2")].


(** The negotiation scenario of the specification, with a header that asks
    for JSON, and a request without extension whose header asks for XML. *)
Definition sample_xml_request : Request :=
  request_of "/v1/instances.xml" [("ACCEPT", "application/json")].

Definition sample_plain_request : Request :=
  request_of "/v1/instances" [("ACCEPT", "application/xml")].

(** A stand-in for [webob]'s matcher that offers the header's own value when
    it is among the offers. *)
Definition sample_best_match (accept : option string) (offers : list string)
    : option string :=
  match accept with
  | Some a => if bool_decide (a ∈ offers) then Some a else None
  | None => None
  end.

(** A payload with both projections, and one with none. *)
Definition sample_view : payload :=
  Payload (PStr "view") (Some (PDict [("instance", PDict [])]))
          (Some (PDict [("instance", PDict []); ("extra", PInt 1)])).

Definition sample_raw : payload :=
  Payload (PDict [("instance", PDict [])]) None None.

(** A base serializer that fails on every result. *)
Definition sample_failing_serializer (_ : action_result) : M Response :=
  raise (RuntimeError "cannot serialize").

(** An exception map that registers a class outside the [ReddwarfError]
    family, an error of that class, and business logic that raises a given
    error. *)
Definition sample_foreign_map : list (http_class * list exc_class) :=
  [ (HTTPNotFound, [ ExcClass OtherFamily "ValueError" ]) ].

Definition sample_value_error : py_exception :=
  OtherException "ValueError" "bad id".

Definition sample_raises (error : py_exception) (_ : Request)
    : M action_result :=
  raise error.

Definition sample_format_exc (error : py_exception) : string :=
  "Traceback: " +:+ str_of error.

(** A downstream application answering 403 with a plain-text page. *)
Definition sample_forbidden_page : Response :=
  MkResponse 403 [("Content-Length", "9");
                  ("Content-Type", "text/plain; charset=UTF-8")] "Forbidden".

Definition sample_forbidden_app (_ : Request) : M Response :=
  ret sample_forbidden_page.

(** An authenticated request of an administrator, and an administrator role
    configured with a capital letter. *)
Definition sample_admin_request : Request :=
  request_of "/v1/instances"
    [("X-Auth-Token", "token"); ("X-Role", "observer,Admin")].

Definition sample_capital_roles : list string := ["Admin"].

(** A mapping whose single root value renders itself, with links, and one
    whose root is a plain mapping. *)
Definition sample_custom_root : dict :=
  [ ("instance", PObj (Element "server" [("id", "1")] []));
    ("links", PList [PDict [("href", PStr "http://h/1"); ("rel", PStr "self")]]) ].

Definition sample_plain_root : dict :=
  [ ("links", PList []);
    ("instance", PDict [("id", PStr "1"); ("volume", PDict [("size", PInt 2)])]) ].

(** A mapping whose root value renders itself as a bare text node. *)
Definition sample_text_root : dict :=
  [ ("instance", PObj (Text "building")); ("links", PList []) ].

(** Stand-ins for the renderings that are not part of the module: [str] of
    an atom, the display of a dictionary, the singular of a tag (the tag
    without its final [s], or [item]), and a rendering of a node that shows
    its tag only. *)
Definition sample_py_str (v : pyval) : string :=
  match v with
  | PStr s => s
  | PInt n => pretty n
  | _ => "..."
  end.

Definition sample_py_repr (d : dict) : string := "{...}".

Fixpoint drop_final_s (nodename : string) : option string :=
  match nodename with
  | EmptyString => None
  | String c EmptyString =>
      if Ascii.eqb c "s" then Some EmptyString else None
  | String c rest => String c <$> drop_final_s rest
  end.

Definition sample_singular (_ : metadata) (nodename : string) : string :=
  default "item" (drop_final_s nodename).

Definition sample_to_xml_string (node : xml_node) : string :=
  match node with
  | Element tag _ _ => tag
  | Text d => d
  end.

(** A version number as the named group takes it: digits, possibly a dot
    and further digits. *)
Definition is_version_no (v : string) : Prop :=
  ∃ d1 d2, is_number d1 = true ∧ all_digits d2 = true
           ∧ (v = d1 ∨ v = d1 +:+ "." +:+ d2).

(** The text does not go on with a digit. *)
Definition no_digit_ahead (rest : string) : bool :=
  match rest with
  | EmptyString => true
  | String c _ => negb (Re.digit c)
  end.

(** [sub] occurs in [s]. *)
Definition occurs (sub s : string) : Prop :=
  ∃ pre post, s = pre +:+ sub +:+ post.

(** The value of the [Accept] header as [accept_version] reads it. *)
Definition accept_header (req : Request) : string :=
  default EmptyString (headers req !! "ACCEPT").

(** [Resource.__init__]: [exception_map or {}], inverted. *)
Definition Resource_model_exception_map
    (exception_map : option (list (http_class * list exc_class)))
    : gmap exc_class http_class :=
  _invert_dict_list (default [] exception_map).

(** A table that lists one class under two statuses. *)
Definition sample_double_map : list (http_class * list exc_class) :=
  [ (HTTPNotFound, [ reddwarf "NotFound"; reddwarf "UserNotFound" ]);
    (HTTPBadRequest, [ reddwarf "BadRequest"; reddwarf "UserNotFound" ]) ].

(** Business logic that returns a plain dictionary. *)
Definition sample_returns_dict (_ : Request) : M action_result :=
  ret (ADict [("instance", PDict [])]).

(** A controller with the actions [index] and [show]. *)
Definition sample_controller (name : string) : bool :=
  bool_decide (name ∈ ["index"; "show"]).

(** The text starts with a capital letter. *)
Definition starts_upper (s : string) : bool :=
  match s with
  | EmptyString => false
  | String c _ => PyStr.is_upper c
  end.

(** Payloads with one projection only. *)
Definition sample_json_only : payload :=
  Payload (PStr "view") None (Some (PDict [("instance", PDict [])])).

Definition sample_xml_only : payload :=
  Payload (PStr "view") (Some (PDict [("instance", PDict [])])) None.

(** A request with pagination parameters, a tenant and no role. *)
Definition sample_paged_request : Request :=
  {| path := "/v1/instances";
     headers := list_to_map [("X-Auth-Token", "token"); ("X-Tenant-Id", "t1")];
     params := list_to_map [("limit", "20"); ("marker", "abc"); ("name", "x")];
     context := None |}.

(** A request of a plain user, with one role. *)
Definition sample_user_request : Request :=
  request_of "/v1/instances" [("X-Auth-Token", "token"); ("X-Role", "Admin")].

(** A downstream application that fails. *)
Definition sample_broken_app (_ : Request) : M Response :=
  raise (RuntimeError "database is down").

(** A base class that fills in a 202 response. *)
Definition sample_super_headers (response : Response) (_ : body_data)
    (_ : unit) : M Response :=
  ret (MkResponse 202 (("Content-Type", "application/json")
                       :: _headerlist response) (resp_body response)).

(** Stand-ins for the two serializers of a fault document. *)
Definition sample_xml_serialize (_ : metadata) (_ : dict) (_ : string)
    : string := "<fault/>".

Definition sample_json_serialize (_ : dict) (_ : string) : string := "{}".

(** * Properties *)

(** ** Strings *)

Lemma rsplit1_shape sep s :
  (∃ t, PyStr.rsplit1 sep s = [t]) ∨ (∃ h t, PyStr.rsplit1 sep s = [h; t]).
Proof.
  induction s as [|c s IH]; simpl; [left; eauto|].
  destruct IH as [[t ->]|(h & t & ->)].
  - destruct (decide (c = sep)); [right|left]; eauto.
  - right; eauto.
Qed.

Lemma rsplit1_no_sep sep s :
  PyStr.mem sep s = false → PyStr.rsplit1 sep s = [s].
Proof.
  induction s as [|c s IH]; simpl; [done|].
  destruct (decide (c = sep)) as [->|Hne]; [done|].
  intros Hs. by rewrite (IH Hs).
Qed.

Lemma rsplit1_app sep p ext :
  PyStr.mem sep ext = false →
  PyStr.rsplit1 sep (p +:+ String sep ext) = [p; ext].
Proof.
  intros Hext. induction p as [|c p IH]; simpl.
  - rewrite (rsplit1_no_sep _ _ Hext). by rewrite decide_True.
  - by rewrite IH.
Qed.



(** ** Content negotiation *)

Section NegotiationFacts.

Variable best_match : option string → list string → option string.

Lemma negotiated_cases req :
  negotiated best_match req = "application/json" ∨
  negotiated best_match req = "application/xml".
Proof.
  unfold negotiated, dict_get_default.
  destruct (best_match _ _) as [k|]; [|by left].
  destruct (list_find _ ctypes) as [[i [k' v]]|] eqn:Hf; [|by left].
  apply list_find_Some in Hf as (Hi & _ & _).
  apply list_elem_of_lookup_2, list_elem_of_In in Hi. simpl in Hi.
  repeat destruct Hi as [Hi|Hi]; try done; injection Hi as _ <-; auto.
Qed.


End NegotiationFacts.


(** ** Version routing *)

Lemma star_greedy_total {R} p s (k : string → option R) :
  (∀ s', is_Some (k s')) → is_Some (Re.star_greedy p s k).
Proof.
  intros Hk. induction s as [|c s IH]; simpl; [done|].
  destruct (p c); [|done]. by destruct (Re.star_greedy p s k).
Qed.

Section RunEquations.

Context {R : Type}.
Implicit Types (k : string → option string → option R).

Lemma run_Lit l s cap k :
  Re.run (Re.Lit l) s cap k =
  match Re.strip_prefix l s with Some s' => k s' cap | None => None end.
Proof. reflexivity. Qed.

Lemma run_Seq r1 r2 s cap k :
  Re.run (Re.Seq r1 r2) s cap k =
  Re.run r1 s cap (λ s' cap', Re.run r2 s' cap' k).
Proof. reflexivity. Qed.

Lemma run_Opt r s cap k :
  Re.run (Re.Opt r) s cap k =
  match Re.run r s cap k with Some x => Some x | None => k s cap end.
Proof. reflexivity. Qed.

Lemma run_Star g p s cap k :
  Re.run (Re.Star g p) s cap k = Re.star g p s (λ s', k s' cap).
Proof. reflexivity. Qed.

Lemma run_Plus g p s cap k :
  Re.run (Re.Plus g p) s cap k =
  match s with
  | String c s' => if p c then Re.star g p s' (λ s'', k s'' cap) else None
  | EmptyString => None
  end.
Proof. reflexivity. Qed.

Lemma run_Class p s cap k :
  Re.run (Re.Class p) s cap k =
  match s with
  | String c s' => if p c then k s' cap else None
  | EmptyString => None
  end.
Proof. reflexivity. Qed.

Lemma run_Group r s cap k :
  Re.run (Re.Group r) s cap k =
  Re.run r s cap (λ s' _, k s' (Some (PyStr.consumed s s'))).
Proof. reflexivity. Qed.

(** The named group matches exactly when a digit comes first. *)
Lemma version_no_matches d rest cap k :
  Re.digit d = true →
  (∀ s' c, is_Some (k s' c)) →
  is_Some (Re.run Re.version_no (String d rest) cap k).
Proof.
  intros Hd Hk. unfold Re.version_no.
  rewrite run_Group, run_Seq, run_Plus, Hd. unfold Re.star.
  apply star_greedy_total. intros s'.
  rewrite run_Seq, run_Opt.
  destruct (Re.run (Re.Lit ".") _ _ _); [done|].
  rewrite run_Star. by apply star_greedy_total.
Qed.

Lemma version_no_fails s cap k :
  (∀ d rest, s = String d rest → Re.digit d = false) →
  Re.run Re.version_no s cap k = None.
Proof.
  intros Hs. unfold Re.version_no. rewrite run_Group, run_Seq, run_Plus.
  destruct s as [|d rest]; [done|]. by rewrite (Hs d rest).
Qed.

End RunEquations.

Lemma strip_prefix_Some p s s' :
  Re.strip_prefix p s = Some s' ↔ s = p +:+ s'.
Proof.
  revert s. induction p as [|a p IH]; intros s; simpl.
  - split; [by intros [= ->]|by intros ->].
  - destruct s as [|b s]; [done|].
    destruct (Ascii.eqb_spec a b) as [->|Hne].
    + rewrite IH. split; [by intros ->|by intros [= ->]].
    + split; [done|]. intros [= ? _]. by destruct Hne.
Qed.

Lemma versioned_url_re_here s :
  (version_segment_at s →
     is_Some (Re.run versioned_url_re s None (λ _ cap, Some cap)))
  ∧ (¬ version_segment_at s →
     Re.run versioned_url_re s None (λ _ cap, Some cap) = None).
Proof.
  unfold versioned_url_re. rewrite run_Seq, run_Lit. split.
  - intros (d & rest & Hd & ->).
    assert (Re.strip_prefix "/v" ("/v" +:+ String d rest) = Some (String d rest))
      as -> by by apply strip_prefix_Some.
    apply version_no_matches; [done|]. by intros.
  - intros Hno.
    destruct (Re.strip_prefix "/v" s) as [s'|] eqn:Hp; [|done].
    apply strip_prefix_Some in Hp as ->.
    apply version_no_fails. intros d rest ->.
    destruct (Re.digit d) eqn:Hd; [|done].
    destruct Hno. by exists d, rest.
Qed.

Lemma star_greedy_Some {R} p s (k : string → option R) x :
  Re.star_greedy p s k = Some x → ∃ s', k s' = Some x.
Proof.
  induction s as [|c s IH]; simpl; [by eauto|].
  destruct (p c); [|by eauto].
  destruct (Re.star_greedy p s k) eqn:Hs; [|by eauto].
  intros [= <-]. by apply IH.
Qed.

(** When the whole match succeeds the named group has taken part in it. *)
Lemma version_no_Some {R} s cap (k : string → option string → option R) x :
  Re.run Re.version_no s cap k = Some x → ∃ s' v, k s' (Some v) = Some x.
Proof.
  unfold Re.version_no. rewrite run_Group, run_Seq, run_Plus.
  destruct s as [|d rest]; [done|]. destruct (Re.digit d); [|done].
  unfold Re.star. intros (s1 & Hs1)%star_greedy_Some.
  rewrite run_Seq, run_Opt in Hs1.
  destruct (Re.run (Re.Lit ".") _ _ _) eqn:Hdot.
  - injection Hs1 as ->. rewrite run_Lit in Hdot.
    destruct (Re.strip_prefix "." s1); [|done].
    rewrite run_Star in Hdot. apply star_greedy_Some in Hdot as [s' Hs'].
    eauto.
  - rewrite run_Star in Hs1. apply star_greedy_Some in Hs1 as [s' Hs'].
    eauto.
Qed.

Lemma has_version_segment_cons c s :
  has_version_segment (String c s) ↔
  version_segment_at (String c s) ∨ has_version_segment s.
Proof.
  split.
  - intros (pre & d & rest & Hd & Heq). destruct pre as [|c' pre].
    + left. exists d, rest. by rewrite Heq.
    + right. exists pre, d, rest. split; [done|]. by injection Heq.
  - intros [(d & rest & Hd & Heq)|(pre & d & rest & Hd & ->)].
    + by exists EmptyString, d, rest.
    + by exists (String c pre), d, rest.
Qed.

Lemma search_versioned_url s :
  (has_version_segment s → ∃ v, Re.search versioned_url_re s = Some (Some v))
  ∧ (¬ has_version_segment s → Re.search versioned_url_re s = None).
Proof.
  assert (∀ s m, Re.run versioned_url_re s None (λ _ cap, Some cap) = Some m →
                 ∃ v, m = Some v) as Hgrp.
  { intros s0 m. unfold versioned_url_re. rewrite run_Seq, run_Lit.
    destruct (Re.strip_prefix "/v" s0); [|done].
    intros (s' & v & [= <-])%version_no_Some. eauto. }
  induction s as [|c s [IHy IHn]].
  - split.
    + intros (pre & d & rest & _ & Heq). by destruct pre.
    + intros _. reflexivity.
  - destruct (versioned_url_re_here (String c s)) as [Hy Hn]. split.
    + intros Hseg. cbn [Re.search].
      destruct (Re.run versioned_url_re (String c s) None _) as [m|] eqn:Hr.
      * destruct (Hgrp _ _ Hr) as [v ->]. eauto.
      * apply has_version_segment_cons in Hseg as [Hat|Hs]; [|by apply IHy].
        apply Hy in Hat. by destruct Hat.
    + intros Hno. cbn [Re.search]. rewrite Hn, IHn; [done|..].
      * intros Hs. apply Hno, has_version_segment_cons. by right.
      * intros Hat. apply Hno, has_version_segment_cons. by left.
Qed.

(** [url_version] is [None] exactly for the paths without a version
    segment. *)
Lemma url_version_None_iff req :
  url_version req = None ↔ ¬ has_version_segment (path req).
Proof.
  unfold url_version. destruct (search_versioned_url (path req)) as [Hy Hn].
  split.
  - intros Hnone Hseg. destruct (Hy Hseg) as [v Hv]. by rewrite Hv in Hnone.
  - intros Hno. by rewrite (Hn Hno).
Qed.

(** ** The version of the [Accept] header *)

Lemma string_length_app (a b : string) :
  String.length (a +:+ b) = (String.length a + String.length b)%nat.
Proof. induction a as [|c a IH]; simpl; [done|]. by rewrite IH. Qed.

Lemma consumed_app (a rest : string) : PyStr.consumed (a +:+ rest) rest = a.
Proof.
  unfold PyStr.consumed. rewrite string_length_app.
  replace (String.length a + String.length rest - String.length rest)%nat
    with (String.length a) by lia.
  induction a as [|c a IH]; simpl.
  - by destruct rest.
  - by rewrite IH.
Qed.

Lemma star_greedy_stop {R} p s (k : string → option R) :
  (∀ c s', s = String c s' → p c = false) → Re.star_greedy p s k = k s.
Proof.
  intros Hs. destruct s as [|c s']; simpl; [done|]. by rewrite (Hs c s').
Qed.










Section VersionedURLMapFacts.

Context {App Resp : Type}.
Variable call_sub : App → Request → Resp.
Variable call_fault : Fault → Request → Resp.
Variable call_urlmap : gmap string App → Request → Resp.


End VersionedURLMapFacts.


(** ** Faults *)

Lemma best_match_content_type_cases best_match req :
  best_match_content_type best_match req = "application/json" ∨
  best_match_content_type best_match req = "application/xml".
Proof.
  unfold best_match_content_type.
  destruct (rsplit1_shape "." (path req)) as [[t ->]|(h & t & ->)]; simpl.
  - apply negotiated_cases.
  - destruct (bool_decide (t ∈ ["json"; "xml"])) eqn:Hd;
      [|apply negotiated_cases].
    apply bool_decide_eq_true, list_elem_of_In in Hd. simpl in Hd.
    destruct Hd as [<-|[<-|[]]]; auto.
Qed.

Section FaultFacts.

Variable best_match : option string → list string → option string.
Variable explanation : http_class → string.
Variable XMLDictSerializer_serialize : metadata → dict → string → string.
Variable JSONDictSerializer_serialize : dict → string → string.

(** C5.  The document of a fault has a single top-level key, the fault name;
    under it, [code] is the status of the wrapped HTTP error and [message] is
    the error's detail when it has one (a non-empty text), the explanation of
    its class otherwise.  Calling the fault never raises and yields the
    wrapped error with this document serialised, as JSON or as XML (with
    [code] registered as an attribute of the fault element), as its body. *)
Theorem fault_document_shape (self : Fault) (req : Request) (l : log) :
  let exc := wrapped_exc self in
  let fault_name := _get_error_name exc in
  let message :=
    match detail exc with
    | Some (String c d) => String c d
    | _ => explanation (exc_cls exc)
    end in
  ∃ inner,
    fault_data explanation self = [(fault_name, PDict inner)]
    ∧ keys (fault_data explanation self) = [fault_name]
    ∧ keys inner = ["code"; "message"]
    ∧ dict_lookup inner "code" = Some (PInt (status_int exc))
    ∧ dict_lookup inner "message" = Some (PStr message)
    ∧ ∃ ctype serialize,
        Fault_call best_match explanation XMLDictSerializer_serialize
          JSONDictSerializer_serialize self req l
        = (Returned {| exc_cls := exc_cls exc;
                       detail := detail exc;
                       body := serialize (fault_data explanation self) ctype;
                       content_type := Some ctype |}, l)
        ∧ ctype = best_match_content_type best_match req
        ∧ ((ctype = "application/json"
            ∧ serialize = JSONDictSerializer_serialize)
           ∨ (ctype = "application/xml"
              ∧ serialize = XMLDictSerializer_serialize
                              (Metadata [(fault_name, AttrStr "code")] []))).
Proof.
  intros exc fault_name message.
  exists [("code", PInt (status_int exc)); ("message", PStr message)].
  assert (fault_data explanation self
          = [(fault_name,
              PDict [("code", PInt (status_int exc)); ("message", PStr message)])])
    as Hdata.
  { unfold fault_data, message, fault_name, exc.
    destruct (detail (wrapped_exc self)) as [[|c d]|]; reflexivity. }
  rewrite Hdata. repeat split.
  unfold Fault_call. rewrite Hdata. fold exc fault_name.
  destruct (best_match_content_type_cases best_match req) as [Hct|Hct];
    rewrite Hct; eexists _, _; (split; [reflexivity|]); split; auto.
Qed.

End FaultFacts.

(** ** Response serialisation *)

Section SerializeResponseFacts.

Context {Out : Type}.
Variable super_serialize_response : action_result → M Out.

(** C6.  When the base serialisation raises, a result that is no finished
    response gets the error logged and the same exception raised again; the
    error is absorbed (nothing is logged, nothing is raised) only for a
    finished response.  A serialisation that succeeds is passed on. *)
Theorem serialize_response_logs_and_reraises
    (action_result : action_result) (ex : py_exception) (l l' : log) :
  super_serialize_response action_result l = (Raised ex, l') →
  (is_webob_response action_result = false →
     ∃ msg,
       serialize_response super_serialize_response action_result l
       = (Raised ex, l' ++ [(ERROR, msg)]))
  ∧ (is_webob_response action_result = true →
       serialize_response super_serialize_response action_result l
       = (Returned None, l'))
  ∧ ((∃ out l'',
        serialize_response super_serialize_response action_result l
        = (Returned out, l'')) →
     is_webob_response action_result = true).
Proof.
  intros Hsuper. unfold serialize_response, try_except, bind.
  rewrite Hsuper. repeat split.
  - intros ->. simpl. unfold bind, LOG, raise. eauto.
  - by intros ->.
  - destruct (is_webob_response action_result); [done|].
    by intros (out & l'' & [=]).
Qed.

Lemma serialize_response_success (action_result : action_result) out l l' :
  super_serialize_response action_result l = (Returned out, l') →
  serialize_response super_serialize_response action_result l
  = (Returned (Some out), l').
Proof.
  intros Hsuper. unfold serialize_response, try_except, bind.
  by rewrite Hsuper.
Qed.

End SerializeResponseFacts.

(** A dictionary that cannot be serialised: the error is logged and raised
    again. *)
Lemma serialize_response_logs_and_reraises_witness :
  sample_failing_serializer (ADict []) []
  = (Raised (RuntimeError "cannot serialize"), [])
  ∧ is_webob_response (ADict []) = false
  ∧ ∃ msg,
      serialize_response sample_failing_serializer (ADict []) []
      = (Raised (RuntimeError "cannot serialize"), [] ++ [(ERROR, msg)]).
Proof.
  split; [reflexivity|]. split; [reflexivity|].
  exact (proj1 (serialize_response_logs_and_reraises
                  sample_failing_serializer (ADict [])
                  (RuntimeError "cannot serialize") [] [] eq_refl) eq_refl).
Defined.

Section SerializeBodyFacts.

Context {Action : Type}.
Variable super_serialize_body :
  Response → pyval → string → Action → M Response.

(** C9.  The serializer of the body receives, for a result envelope, the
    XML projection of the payload when XML was negotiated and the payload
    has one, the JSON projection when JSON was negotiated and the payload
    has one, and the raw mapping, whatever was negotiated, when the payload
    has neither projection. *)
Theorem serialize_body_uses_matching_projection
    (response : Response) (r : Result) (content_type : string)
    (action : Action) :
  serialize_body super_serialize_body response (BResult r) content_type action
  = super_serialize_body response (Result_data r content_type)
      content_type action
  ∧ (∀ xml, content_type = "application/xml" →
            data_for_xml (_data r) = Some xml →
            Result_data r content_type = xml)
  ∧ (∀ json, content_type = "application/json" →
             data_for_json (_data r) = Some json →
             Result_data r content_type = json)
  ∧ (data_for_xml (_data r) = None → data_for_json (_data r) = None →
     Result_data r content_type = raw (_data r)).
Proof.
  split; [reflexivity|]. unfold Result_data. repeat split.
  - intros xml -> ->. reflexivity.
  - intros json -> ->. reflexivity.
  - intros -> ->. by destruct (bool_decide _).
Qed.

End SerializeBodyFacts.

(** Both projections are picked by the negotiated type; a payload without
    projections is passed as it is. *)
Lemma serialize_body_uses_matching_projection_witness :
  (data_for_xml sample_view = Some (PDict [("instance", PDict [])]) ∧
   Result_data (MkResult sample_view 200) "application/xml"
   = PDict [("instance", PDict [])])
  ∧ (data_for_json sample_view
     = Some (PDict [("instance", PDict []); ("extra", PInt 1)]) ∧
     Result_data (MkResult sample_view 200) "application/json"
     = PDict [("instance", PDict []); ("extra", PInt 1)])
  ∧ (data_for_xml sample_raw = None ∧ data_for_json sample_raw = None ∧
     Result_data (MkResult sample_raw 200) "application/xml"
     = PDict [("instance", PDict [])]).
Proof.
  pose (super := λ (resp : Response) (_ : pyval) (_ : string) (_ : unit),
                   ret (A:=Response) resp).
  pose (resp := MkResponse 200 [] EmptyString).
  split; [split; [reflexivity|]
         |split; [split; [reflexivity|]
                 |split; [reflexivity|split; [reflexivity|]]]].
  - exact (proj1 (proj2 (serialize_body_uses_matching_projection super resp
             (MkResult sample_view 200) "application/xml" tt)) _ eq_refl eq_refl).
  - exact (proj1 (proj2 (proj2 (serialize_body_uses_matching_projection super
             resp (MkResult sample_view 200) "application/json" tt)))
             _ eq_refl eq_refl).
  - exact (proj2 (proj2 (proj2 (serialize_body_uses_matching_projection super
             resp (MkResult sample_raw 200) "application/xml" tt)))
             eq_refl eq_refl).
Defined.

(** ** The inverted exception map *)

Lemma invert_inner (k : http_class) (values : list exc_class)
    (m : gmap exc_class http_class) (t : exc_class) :
  foldl (λ inv value, <[value := k]> inv) m values !! t
  = if bool_decide (t ∈ values) then Some k else m !! t.
Proof.
  revert m. induction values as [|v values IH]; intros m; cbn [foldl].
  - by rewrite bool_decide_false by apply not_elem_of_nil.
  - rewrite IH. destruct (decide (t ∈ values)) as [Hin|Hnin].
    + rewrite !bool_decide_true; [done|by right|done].
    + rewrite (bool_decide_false _ Hnin).
      destruct (decide (t = v)) as [->|Hne].
      * rewrite bool_decide_true by by left. by rewrite lookup_insert_eq.
      * rewrite bool_decide_false by (by intros [->|?]%elem_of_cons).
        by rewrite lookup_insert_ne.
Qed.

Lemma invert_from_cons m k values table :
  invert_from m ((k, values) :: table)
  = invert_from (foldl (λ inv value, <[value := k]> inv) m values) table.
Proof. reflexivity. Qed.

Lemma invert_from_Some table m t k :
  invert_from m table !! t = Some k →
  (∃ values, (k, values) ∈ table ∧ t ∈ values) ∨ m !! t = Some k.
Proof.
  revert m. induction table as [|[k' values] table IH]; intros m.
  - by right.
  - rewrite invert_from_cons. intros [(vs & Hin & Ht)|Hm]%IH.
    + left. exists vs. split; [by right|done].
    + rewrite invert_inner in Hm.
      destruct (bool_decide (t ∈ values)) eqn:Hd; [|by right].
      apply bool_decide_eq_true in Hd.
      injection Hm as ->. left. exists values. split; [by left|done].
Qed.

Lemma invert_from_unlisted table m t :
  (∀ k values, (k, values) ∈ table → t ∉ values) →
  invert_from m table !! t = m !! t.
Proof.
  revert m. induction table as [|[k' values] table IH]; intros m Hno.
  - done.
  - rewrite invert_from_cons.
    rewrite IH by (intros k vs Hin; apply (Hno k vs); by right).
    rewrite invert_inner.
    by rewrite bool_decide_false by (apply (Hno k' values); by left).
Qed.

Lemma invert_from_keeps table m t :
  is_Some (m !! t) → is_Some (invert_from m table !! t).
Proof.
  revert m. induction table as [|[k' values] table IH]; intros m Hm.
  - done.
  - rewrite invert_from_cons. apply IH. rewrite invert_inner.
    by destruct (bool_decide (t ∈ values)).
Qed.

Lemma invert_from_listed table m t k values :
  (k, values) ∈ table → t ∈ values → is_Some (invert_from m table !! t).
Proof.
  revert m. induction table as [|[k' vs] table IH]; intros m Hin Ht.
  - by apply elem_of_nil in Hin.
  - rewrite invert_from_cons.
    apply elem_of_cons in Hin as [[= <- <-]|Hin]; [|by apply IH].
    apply invert_from_keeps. rewrite invert_inner.
    by rewrite bool_decide_true.
Qed.

(** An exception class listed under one status class only is inverted to
    that class, whatever the order of the dictionary. *)
Lemma invert_dict_list_unique table t k values :
  (k, values) ∈ table → t ∈ values →
  (∀ k' values', (k', values') ∈ table → t ∈ values' → k' = k) →
  _invert_dict_list table !! t = Some k.
Proof.
  intros Hin Ht Huniq.
  destruct (invert_from_listed table ∅ t k values Hin Ht) as [k' Hk'].
  change (_invert_dict_list table) with (invert_from ∅ table).
  rewrite Hk'. f_equal.
  apply invert_from_Some in Hk' as [(vs & Hin' & Ht')|Hm]; [|done].
  by apply (Huniq k' vs).
Qed.

Lemma invert_dict_list_Some table t k :
  _invert_dict_list table !! t = Some k →
  ∃ values, (k, values) ∈ table ∧ t ∈ values.
Proof.
  change (_invert_dict_list table) with (invert_from ∅ table).
  by intros [?|?]%invert_from_Some.
Qed.

Lemma invert_dict_list_None table t :
  _invert_dict_list table !! t = None ↔
  ∀ k values, (k, values) ∈ table → t ∉ values.
Proof.
  change (_invert_dict_list table) with (invert_from ∅ table). split.
  - intros Hnone k values Hin Ht.
    destruct (invert_from_listed table ∅ t k values Hin Ht) as [k' Hk'].
    by rewrite Hnone in Hk'.
  - intros Hno. by rewrite invert_from_unlisted.
Qed.

(** ** Mapping business errors to faults *)

Section ExecuteActionFacts.

Variable format_exc : py_exception → string.
Variable super_execute_action : Request → M action_result.

(** What [execute_action] does with a [ReddwarfError]. *)
Lemma execute_action_reddwarf_error map req l l' cls msg :
  super_execute_action req l = (Raised (ReddwarfError cls msg), l') →
  execute_action format_exc super_execute_action map true req l
  = (Returned (AFault (MkFault
       (http_new (default HTTPBadRequest (map !! ExcClass ReddwarfFamily cls))
                 (Some msg)))),
     l' ++ [(DEBUG, format_exc (ReddwarfError cls msg))]).
Proof.
  intros Hsuper. unfold execute_action, try_except, bind. simpl.
  by rewrite Hsuper.
Qed.

(** C2, as the code has it.  For a [ReddwarfError] raised by the action, the
    fault wraps an HTTP error whose detail is the error's text and whose
    class is looked up by the exact type of the error in the inverted table:
    a class under which the table lists that type (the class, when the type
    is listed under one class only), and [HTTPBadRequest], status 400, when
    the table lists the type nowhere. *)
Theorem reddwarf_error_fault_class
    (table : list (http_class * list exc_class)) (req : Request)
    (l l' : log) (cls msg : string) :
  super_execute_action req l = (Raised (ReddwarfError cls msg), l') →
  ∃ f l'',
    execute_action format_exc super_execute_action (_invert_dict_list table)
      true req l = (Returned (AFault f), l'')
    ∧ detail (wrapped_exc f) = Some msg
    ∧ (∀ k, _invert_dict_list table !! ExcClass ReddwarfFamily cls = Some k →
            exc_cls (wrapped_exc f) = k
            ∧ status_int (wrapped_exc f) = hc_code k
            ∧ ∃ values, (k, values) ∈ table
                        ∧ ExcClass ReddwarfFamily cls ∈ values)
    ∧ (∀ k values,
         (k, values) ∈ table → ExcClass ReddwarfFamily cls ∈ values →
         (∀ k' values', (k', values') ∈ table →
                        ExcClass ReddwarfFamily cls ∈ values' → k' = k) →
         exc_cls (wrapped_exc f) = k ∧ status_int (wrapped_exc f) = hc_code k)
    ∧ ((∀ k values, (k, values) ∈ table →
                    ExcClass ReddwarfFamily cls ∉ values) →
       exc_cls (wrapped_exc f) = HTTPBadRequest
       ∧ status_int (wrapped_exc f) = 400).
Proof.
  intros Hsuper. eexists _, _.
  split; [by apply execute_action_reddwarf_error|].
  split; [done|]. cbn [wrapped_exc http_new exc_cls]. unfold status_int.
  cbn [exc_cls]. split; [|split].
  - intros k Hk. rewrite Hk. repeat split.
    by apply invert_dict_list_Some.
  - intros k values Hin Hlisted Huniq.
    by rewrite (invert_dict_list_unique _ _ _ _ Hin Hlisted Huniq).
  - intros Hnone%invert_dict_list_None. by rewrite Hnone.
Qed.

(** C10.  With the controller's default table, in whatever order the
    dictionary is walked, a [Forbidden] raised by the action becomes a fault
    of class [HTTPUnauthorized]: status 401 and name [unauthorized], not 403
    and not [forbidden]. *)
Theorem forbidden_becomes_unauthorized
    (table : list (http_class * list exc_class)) (req : Request)
    (l l' : log) (msg : string) :
  table ≡ₚ exception_map →
  super_execute_action req l = (Raised (ReddwarfError "Forbidden" msg), l') →
  ∃ f l'',
    execute_action format_exc super_execute_action (_invert_dict_list table)
      true req l = (Returned (AFault f), l'')
    ∧ exc_cls (wrapped_exc f) = HTTPUnauthorized
    ∧ status_int (wrapped_exc f) = 401
    ∧ _get_error_name (wrapped_exc f) = "unauthorized"
    ∧ status_int (wrapped_exc f) ≠ 403
    ∧ _get_error_name (wrapped_exc f) ≠ "forbidden".
Proof.
  intros Hperm Hsuper.
  assert (_invert_dict_list table !! ExcClass ReddwarfFamily "Forbidden"
          = Some HTTPUnauthorized) as Hmap.
  { apply (invert_dict_list_unique _ _ _ [reddwarf "Forbidden"]).
    - rewrite Hperm. right; left.
    - by left.
    - intros k' values' Hin Hforb. rewrite Hperm in Hin.
      apply list_elem_of_In in Hin. apply list_elem_of_In in Hforb.
      simpl in Hin.
      repeat (destruct Hin as [[= <- <-]|Hin]; [simpl in Hforb|]);
        try done; try (by intuition discriminate). }
  eexists _, _.
  split; [by apply execute_action_reddwarf_error|].
  rewrite Hmap. by repeat split.
Qed.

End ExecuteActionFacts.

(** [UserNotFound] is listed under [HTTPNotFound] alone in the default
    table: the fault is a 404. *)
Lemma reddwarf_error_fault_class_witness :
  sample_raises (ReddwarfError "UserNotFound" "no such user")
    sample_plain_request []
  = (Raised (ReddwarfError "UserNotFound" "no such user"), [])
  ∧ ∃ f l'',
      execute_action sample_format_exc
        (sample_raises (ReddwarfError "UserNotFound" "no such user"))
        (_invert_dict_list exception_map) true sample_plain_request []
      = (Returned (AFault f), l'')
      ∧ detail (wrapped_exc f) = Some "no such user"
      ∧ exc_cls (wrapped_exc f) = HTTPNotFound
      ∧ status_int (wrapped_exc f) = 404.
Proof.
  split; [reflexivity|].
  destruct (reddwarf_error_fault_class sample_format_exc
              (sample_raises (ReddwarfError "UserNotFound" "no such user"))
              exception_map sample_plain_request [] []
              "UserNotFound" "no such user" eq_refl)
    as (f & l'' & Hrun & Hdetail & Hreg & _).
  exists f, l''. split; [exact Hrun|]. split; [exact Hdetail|].
  destruct (Hreg HTTPNotFound ltac:(vm_compute; reflexivity))
    as (Hcls & Hstatus & _).
  split; [exact Hcls|exact Hstatus].
Defined.

Lemma forbidden_becomes_unauthorized_witness :
  exception_map ≡ₚ exception_map
  ∧ sample_raises (ReddwarfError "Forbidden" "not yours")
      sample_plain_request []
    = (Raised (ReddwarfError "Forbidden" "not yours"), [])
  ∧ ∃ f l'',
      execute_action sample_format_exc
        (sample_raises (ReddwarfError "Forbidden" "not yours"))
        (_invert_dict_list exception_map) true sample_plain_request []
      = (Returned (AFault f), l'')
      ∧ status_int (wrapped_exc f) = 401
      ∧ _get_error_name (wrapped_exc f) = "unauthorized".
Proof.
  split; [reflexivity|]. split; [reflexivity|].
  destruct (forbidden_becomes_unauthorized sample_format_exc
              (sample_raises (ReddwarfError "Forbidden" "not yours"))
              exception_map sample_plain_request [] [] "not yours"
              (reflexivity _) eq_refl)
    as (f & l'' & Hrun & _ & Hstatus & Hname & _).
  exists f, l''. split; [exact Hrun|]. split; [exact Hstatus|exact Hname].
Defined.

(** The claim C2 as stated fails for an error outside the [ReddwarfError]
    family: [ValueError] is registered under [HTTPNotFound], yet the fault
    for a raised [ValueError] is the 500 of the last [except] clause. *)
Lemma registered_foreign_error_counterexample :
  ¬ (∀ k,
       _invert_dict_list sample_foreign_map !! type_of sample_value_error
       = Some k →
       ∀ f l,
         execute_action sample_format_exc (sample_raises sample_value_error)
           (_invert_dict_list sample_foreign_map) true sample_plain_request []
         = (Returned (AFault f), l) →
         exc_cls (wrapped_exc f) = k).
Proof.
  intros Hclaim.
  specialize (Hclaim HTTPNotFound ltac:(vm_compute; reflexivity)
    (MkFault (http_new HTTPInternalServerError (Some "bad id")))
    [(EXCEPTION, "bad id")] eq_refl).
  discriminate Hclaim.
Qed.

(** ** The fault-wrapping middleware *)

Lemma if_bool_eq {A} (b b' : bool) (x y : A) :
  b = b' → (if b then x else y) = (if b' then x else y).
Proof. by intros ->. Qed.

Lemma headers_loop_found resp hs cls i l :
  list_find (λ kv, kv.1 = resp_status_int resp) code_wrapper
  = Some (i, (resp_status_int resp, cls)) →
  headers_loop resp hs l
  = (Returned
       (if bool_decide (("Content-Type", "text/plain; charset=UTF-8") ∈ hs)
        then Some (MkFault (http_new cls None)) else None), l).
Proof.
  intros Hfind. induction hs as [|[header value] hs IH]; cbn [headers_loop].
  - by rewrite bool_decide_false by apply not_elem_of_nil.
  - destruct (decide (header = "Content-Type")) as [->|Hh];
      [destruct (decide (value = "text/plain; charset=UTF-8")) as [->|Hv]|].
    + rewrite !bool_decide_true by (done || by left). cbn [andb].
      by rewrite Hfind.
    + rewrite (bool_decide_false _ Hv), andb_false_r, IH.
      apply f_equal2; [f_equal|done]. apply if_bool_eq.
      apply bool_decide_ext. split; [by right|].
      by intros [[= ?]|?]%elem_of_cons.
    + rewrite (bool_decide_false _ Hh), andb_false_l, IH.
      apply f_equal2; [f_equal|done]. apply if_bool_eq.
      apply bool_decide_ext. split; [by right|].
      by intros [[= ?]|?]%elem_of_cons.
Qed.

Lemma code_wrapper_find status :
  status ∈ resp_codes →
  ∃ i cls,
    list_find (λ kv, kv.1 = status) code_wrapper = Some (i, (status, cls))
    ∧ cls = (if bool_decide (status = 400) then HTTPBadRequest
             else if bool_decide (status = 404) then HTTPNotFound
             else HTTPUnauthorized).
Proof.
  intros Hin. apply list_elem_of_In in Hin. simpl in Hin.
  destruct Hin as [<-|[<-|[<-|[<-|[]]]]]; eexists _, _; split; reflexivity.
Qed.

Section FaultWrapperFacts.

Variable application : Request → M Response.

(** C8, as the code has it.  A downstream response whose status is 400, 401,
    403 or 404 and which carries the plain-text [Content-Type] header is
    replaced by a fault of the class that [code_wrapper] gives for the
    status: [HTTPBadRequest] for 400, [HTTPNotFound] for 404 and
    [HTTPUnauthorized] for 401 and for 403 alike.  Any other response is
    returned as it is, and an exception of the downstream chain is logged
    and replaced by a fault of class [HTTPInternalServerError]. *)
Theorem fault_wrapper_rewrites_by_code_wrapper (req : Request) (l l' : log) :
  (∀ resp, application req l = (Returned resp, l') →
     (resp_status_int resp ∈ [400; 401; 403; 404] →
      plain_text_error_page resp →
      ∃ cls,
        FaultWrapper_call application req l
        = (Returned (WFault (MkFault (http_new cls None))), l')
        ∧ (resp_status_int resp, cls) ∈ code_wrapper
        ∧ cls = (if bool_decide (resp_status_int resp = 400)
                 then HTTPBadRequest
                 else if bool_decide (resp_status_int resp = 404)
                 then HTTPNotFound
                 else HTTPUnauthorized))
     ∧ (¬ (resp_status_int resp ∈ [400; 401; 403; 404]
           ∧ plain_text_error_page resp) →
        FaultWrapper_call application req l = (Returned (WResp resp), l')))
  ∧ (∀ ex, application req l = (Raised ex, l') →
       FaultWrapper_call application req l
       = (Returned (WFault (MkFault (http_new HTTPInternalServerError None))),
          l' ++ [(EXCEPTION, "Caught error: " +:+ str_of ex)])).
Proof.
  split.
  - intros resp Happ. unfold FaultWrapper_call, try_except, bind.
    rewrite Happ. split.
    + intros Hcode Hpage.
      destruct (code_wrapper_find _ Hcode) as (i & cls & Hfind & Hcls).
      exists cls. rewrite bool_decide_true by done.
      rewrite (headers_loop_found _ _ _ _ _ Hfind).
      rewrite bool_decide_true by done. split; [done|]. split; [|done].
      apply list_find_Some in Hfind as (Hi & _).
      by apply list_elem_of_lookup_2 in Hi.
    + intros Hnot.
      destruct (decide (resp_status_int resp ∈ resp_codes)) as [Hcode|Hcode].
      * destruct (code_wrapper_find _ Hcode) as (i & cls & Hfind & _).
        rewrite bool_decide_true by done.
        rewrite (headers_loop_found _ _ _ _ _ Hfind).
        rewrite bool_decide_false; [done|]. intros Hpage. by apply Hnot.
      * by rewrite bool_decide_false.
  - intros ex Happ. unfold FaultWrapper_call, try_except, bind.
    by rewrite Happ.
Qed.

End FaultWrapperFacts.

(** A plain-text 403 page becomes a fault of class [HTTPUnauthorized]. *)
Lemma fault_wrapper_rewrites_by_code_wrapper_witness :
  sample_forbidden_app sample_plain_request [] = (Returned sample_forbidden_page, [])
  ∧ resp_status_int sample_forbidden_page ∈ [400; 401; 403; 404]
  ∧ plain_text_error_page sample_forbidden_page
  ∧ FaultWrapper_call sample_forbidden_app sample_plain_request []
    = (Returned (WFault (MkFault (http_new HTTPUnauthorized None))), []).
Proof.
  assert (resp_status_int sample_forbidden_page ∈ [400; 401; 403; 404])
    as Hcode by (right; right; left).
  assert (plain_text_error_page sample_forbidden_page)
    as Hpage by (right; left).
  split; [reflexivity|]. split; [exact Hcode|]. split; [exact Hpage|].
  destruct (proj1 (proj1 (fault_wrapper_rewrites_by_code_wrapper
              sample_forbidden_app sample_plain_request [] [])
              sample_forbidden_page eq_refl) Hcode Hpage)
    as (cls & Hrun & _ & Hcls).
  rewrite Hrun, Hcls. reflexivity.
Defined.

(** The claim C8 as stated fails at status 403: the fault that replaces a
    plain-text 403 page does not have status 403 but 401. *)
Lemma fault_wrapper_403_counterexample :
  resp_status_int sample_forbidden_page ∈ [400; 401; 403; 404]
  ∧ plain_text_error_page sample_forbidden_page
  ∧ ¬ (∀ f l,
         FaultWrapper_call sample_forbidden_app sample_plain_request []
         = (Returned (WFault f), l) →
         status_int (wrapped_exc f) = resp_status_int sample_forbidden_page).
Proof.
  split; [right; right; left|]. split; [right; left|].
  intros Hclaim.
  specialize (Hclaim (MkFault (http_new HTTPUnauthorized None)) [] eq_refl).
  discriminate Hclaim.
Qed.

(** ** Context extraction *)

Lemma lower_char_not_upper c : PyStr.is_upper (PyStr.lower_char c) = false.
Proof.
  unfold PyStr.lower_char. destruct (PyStr.is_upper c) eqn:Hup; [|done].
  unfold PyStr.is_upper in *. apply andb_prop in Hup as [Hlo Hhi].
  apply Nat.leb_le in Hlo, Hhi.
  rewrite nat_ascii_embedding by lia.
  apply andb_false_intro2, Nat.leb_gt. lia.
Qed.

Lemma lower_idempotent s : PyStr.lower (PyStr.lower s) = PyStr.lower s.
Proof.
  induction s as [|c s IH]; [done|].
  cbn [PyStr.lower]. rewrite IH. f_equal.
  unfold PyStr.lower_char at 1. by rewrite lower_char_not_upper.
Qed.

Lemma admin_loop_true admin_roles roles :
  admin_loop admin_roles roles = true ↔
  ∃ role, role ∈ roles ∧ PyStr.lower role ∈ admin_roles.
Proof.
  induction roles as [|role roles IH]; simpl.
  - split; [done|]. by intros (? & ?%elem_of_nil & _).
  - destruct (decide (PyStr.lower role ∈ admin_roles)) as [Hin|Hnin].
    + rewrite bool_decide_true by done. split; [|done].
      intros _. exists role. split; [by left|done].
    + rewrite bool_decide_false by done. rewrite IH. split.
      * intros (r & Hr & Hlow). exists r. split; [by right|done].
      * intros (r & [->|Hr]%elem_of_cons & Hlow); [done|]. eauto.
Qed.

Section ContextFacts.

Variable admin_roles : list string.

(** What [process_request] computes.  Without [X-Auth-Token] the extraction
    raises and the wrapped application is not run, whatever it is.  With the
    token a context is stored whose admin flag is set exactly when the
    lower-case form of some role of the comma-separated [X-Role] list is a
    member of the configured admin roles; when the configured roles are
    written in lower case this is a match that ignores case. *)
Lemma process_request_context (request : Request) (l : log) :
  (headers request !! "X-Auth-Token" = None →
     process_request admin_roles request l
     = (Raised (KeyError "HTTP_X_AUTH_TOKEN"), l)
     ∧ ∀ Resp (application : Request → M Resp),
         Middleware_call admin_roles application request l
         = (Raised (KeyError "HTTP_X_AUTH_TOKEN"), l))
  ∧ (∀ tok, headers request !! "X-Auth-Token" = Some tok →
       ∃ ctx,
         process_request admin_roles request l
         = (Returned {| path := path request;
                        headers := headers request;
                        params := params request;
                        context := Some ctx |}, l)
         ∧ auth_tok ctx = tok
         ∧ (is_admin ctx = true ↔
            ∃ role, role ∈ roles_of request
                    ∧ PyStr.lower role ∈ admin_roles)
         ∧ ((∀ a, a ∈ admin_roles → PyStr.lower a = a) →
            (is_admin ctx = true ↔
             ∃ role a, role ∈ roles_of request ∧ a ∈ admin_roles
                       ∧ same_role_ignoring_case role a))).
Proof.
  split.
  - intros Hnone. unfold Middleware_call, process_request, bind.
    rewrite Hnone. split; [done|]. by intros.
  - intros tok Htok. unfold process_request, bind. rewrite Htok.
    eexists. split; [reflexivity|]. split; [reflexivity|].
    cbn [is_admin]. fold (roles_of request). rewrite admin_loop_true.
    split; [done|]. intros Hlower. split.
    + intros (role & Hrole & Hin). exists role, (PyStr.lower role).
      repeat split; [done..|].
      unfold same_role_ignoring_case. by rewrite (Hlower _ Hin).
    + intros (role & a & Hrole & Ha & Hsame). exists role. split; [done|].
      unfold same_role_ignoring_case in Hsame.
      by rewrite Hsame, (Hlower _ Ha).
Qed.

End ContextFacts.

(** With the default configuration [admin] the role [Admin] of the header
    makes an administrator. *)
Lemma process_request_default_admin_role :
  headers sample_admin_request !! "X-Auth-Token" = Some "token"
  ∧ (∀ a, a ∈ ["admin"] → PyStr.lower a = a)
  ∧ ∃ ctx,
      process_request ["admin"] sample_admin_request []
      = (Returned {| path := path sample_admin_request;
                     headers := headers sample_admin_request;
                     params := params sample_admin_request;
                     context := Some ctx |}, [])
      ∧ auth_tok ctx = "token"
      ∧ is_admin ctx = true.
Proof.
  assert (headers sample_admin_request !! "X-Auth-Token" = Some "token")
    as Htok by (vm_compute; reflexivity).
  assert (∀ a, a ∈ ["admin"] → PyStr.lower a = a) as Hlower.
  { intros a Ha. apply list_elem_of_In in Ha. simpl in Ha.
    destruct Ha as [<-|[]]. reflexivity. }
  split; [exact Htok|]. split; [exact Hlower|].
  destruct (proj2 (process_request_context ["admin"] sample_admin_request [])
              "token" Htok) as (ctx & Hrun & Hauth & _ & Hadmin).
  exists ctx. split; [exact Hrun|]. split; [exact Hauth|].
  apply (Hadmin Hlower). exists "Admin", "admin".
  split; [|split; [by left|reflexivity]].
  change (roles_of sample_admin_request) with ["observer"; "Admin"].
  right; left.
Qed.

(** A configured admin role that is not written in lower case is never
    matched: the loop lower-cases the role of the header and leaves the
    configured one as it is, so a role can only match a configured role
    that equals its own lower-case form. *)
Lemma admin_loop_only_lower_case_roles admin_roles roles :
  admin_loop admin_roles roles = true →
  ∃ role a, role ∈ roles ∧ a ∈ admin_roles
            ∧ a = PyStr.lower role ∧ PyStr.lower a = a.
Proof.
  rewrite admin_loop_true. intros (role & Hrole & Hin).
  exists role, (PyStr.lower role). repeat split; [done..|].
  apply lower_idempotent.
Qed.

(** C7 on the code, at the configuration [admin_roles = [Admin]] and a
    request with the headers [X-Auth-Token: token] and
    [X-Role: observer,Admin].  The role [Admin] of the header is among the
    configured admin roles, literally and so also ignoring case, and the
    claim makes the caller an administrator; [process_request] compares the
    lower-cased [admin] with the configured [Admin] and stores a context
    whose admin flag is unset. *)
Theorem process_request_capital_admin_role :
  headers sample_admin_request !! "X-Auth-Token" = Some "token"
  ∧ roles_of sample_admin_request = ["observer"; "Admin"]
  ∧ "Admin" ∈ sample_capital_roles
  ∧ same_role_ignoring_case "Admin" "Admin"
  ∧ process_request sample_capital_roles sample_admin_request []
    = (Returned {| path := path sample_admin_request;
                   headers := headers sample_admin_request;
                   params := params sample_admin_request;
                   context :=
                     Some {| auth_tok := "token"; tenant := None;
                             user := None; is_admin := false;
                             limit := None; marker := None |} |}, [])
  ∧ ¬ (∀ ctx l,
         process_request sample_capital_roles sample_admin_request []
         = (Returned {| path := path sample_admin_request;
                        headers := headers sample_admin_request;
                        params := params sample_admin_request;
                        context := Some ctx |}, l) →
         (is_admin ctx = true ↔
          ∃ role a, role ∈ roles_of sample_admin_request
                    ∧ a ∈ sample_capital_roles
                    ∧ same_role_ignoring_case role a)).
Proof.
  assert (roles_of sample_admin_request = ["observer"; "Admin"]) as Hroles
    by (vm_compute; reflexivity).
  split; [vm_compute; reflexivity|].
  split; [exact Hroles|].
  split; [by left|].
  split; [reflexivity|].
  split; [vm_compute; reflexivity|].
  intros Hclaim.
  pose (ctx := {| auth_tok := "token"; tenant := None; user := None;
                  is_admin := false; limit := None; marker := None |}).
  assert (is_admin ctx = true) as Htrue; [|discriminate Htrue].
  apply (Hclaim ctx []); [vm_compute; reflexivity|].
  exists "Admin", "Admin". split; [|split; [by left|done]].
  rewrite Hroles. right; left.
Qed.

(** ** The XML serializer *)

Lemma dict_lookup_cons {V} k (k' : string) (v' : V) d :
  dict_lookup ((k', v') :: d) k
  = if decide (k' = k) then Some v' else dict_lookup d k.
Proof.
  unfold dict_lookup. cbn [list_find]. cbn [fst].
  destruct (decide (k' = k)); [done|].
  by destruct (list_find _ d) as [[? [? ?]]|].
Qed.

Lemma dict_lookup_is_Some {V} (d : list (string * V)) k :
  k ∈ keys d ↔ is_Some (dict_lookup d k).
Proof.
  induction d as [|[k' v'] d IH].
  - split; [by intros ?%elem_of_nil|by intros [? ?]].
  - rewrite dict_lookup_cons. unfold keys in *. cbn [fmap list_fmap fst].
    rewrite elem_of_cons, IH.
    destruct (decide (k' = k)) as [->|Hne]; [by split; eauto|].
    split; [by intros [->|?]|by right].
Qed.

Section XMLFacts.

Import ReddwarfXMLDictSerializer.

Variable py_str : pyval → string.
Variable py_repr : dict → string.
Variable singular : metadata → string → string.
Variable to_xml_string : xml_node → string.

(** The loop of [default]: it returns when it has seen at most one key
    other than [links], and logs and raises at the second one. *)
Lemma default_loop_spec data ks has_links root_key l :
  let roots := option_list root_key ++ filter (λ k, k ≠ "links") ks in
  let msg := "Xml issue: multiple root keys found in dict!: "
             +:+ py_repr data in
  default_loop py_repr data ks has_links root_key l
  = if bool_decide (length roots ≤ 1)%nat
    then (Returned (has_links || bool_decide ("links" ∈ ks), head roots), l)
    else (Raised (RuntimeError msg), l ++ [(ERROR, msg)]).
Proof.
  revert has_links root_key.
  induction ks as [|key ks IH]; intros has_links root_key; cbn zeta.
  - rewrite filter_nil, app_nil_r.
    rewrite (bool_decide_false ("links" ∈ [])) by apply not_elem_of_nil.
    rewrite orb_false_r. by destruct root_key.
  - cbn [default_loop]. destruct (decide (key = "links")) as [->|Hne].
    + rewrite IH. cbn zeta. rewrite filter_cons_False by (by intros ?).
      rewrite (bool_decide_true ("links" ∈ "links" :: ks)) by by left.
      rewrite orb_true_r. by destruct (bool_decide (_ ≤ 1)%nat).
    + rewrite filter_cons_True by done.
      assert (bool_decide ("links" ∈ key :: ks) = bool_decide ("links" ∈ ks))
        as ->.
      { apply bool_decide_ext. rewrite elem_of_cons.
        split; [by intros [?|?]|by right]. }
      destruct root_key as [r|].
      * rewrite bool_decide_false by (cbn; lia). done.
      * by rewrite IH.
Qed.

Lemma default_loop_from_start data l :
  let msg := "Xml issue: multiple root keys found in dict!: "
             +:+ py_repr data in
  default_loop py_repr data (keys data) false None l
  = match non_links_keys data with
    | [] => (Returned (bool_decide ("links" ∈ keys data), None), l)
    | [root_key] =>
        (Returned (bool_decide ("links" ∈ keys data), Some root_key), l)
    | _ => (Raised (RuntimeError msg), l ++ [(ERROR, msg)])
    end.
Proof.
  rewrite default_loop_spec. cbv zeta.
  change (option_list None ++ filter (λ k, k ≠ "links") (keys data))
    with (non_links_keys data).
  by destruct (non_links_keys data) as [|k1 [|k2 roots]].
Qed.

(** C1, as the code has it.  A mapping with no key other than [links], or
    with two or more of them, makes [default] log an error and raise it, with
    no body produced.  With exactly one such key the root of the document is
    the node of that key's value: an element named by the key, or, for a
    value that has its own [to_xml], whatever that returns.  The node of a
    [links] entry, when there is one, is appended as the last child of a
    root that is an element; a root that is a text node, which only a
    [to_xml] can return, takes no child: [default] then raises the
    hierarchy error of the DOM, with nothing logged and no body produced. *)
Theorem xml_default_root_and_links (self_metadata : metadata) (data : dict)
    (l : log) :
  (non_links_keys data = [] ∨ (2 ≤ length (non_links_keys data))%nat →
     ∃ msg,
       default py_str py_repr singular to_xml_string self_metadata data l
       = (Raised (RuntimeError msg), l ++ [(ERROR, msg)]))
  ∧ (∀ root_key, non_links_keys data = [root_key] →
     ∃ root_val,
       dict_lookup data root_key = Some root_val
       ∧ match root_val with
         | PObj to_xml =>
             _to_xml_node py_str singular self_metadata root_key root_val
             = to_xml
         | _ =>
             ∃ attrs children,
               _to_xml_node py_str singular self_metadata root_key root_val
               = Element root_key attrs children
         end
       ∧ ("links" ∉ keys data →
          default py_str py_repr singular to_xml_string self_metadata data l
          = (Returned (to_xml_string
               (_to_xml_node py_str singular self_metadata root_key root_val)),
             l))
       ∧ (∀ links_val tag attrs children,
            dict_lookup data "links" = Some links_val →
            _to_xml_node py_str singular self_metadata root_key root_val
            = Element tag attrs children →
            default py_str py_repr singular to_xml_string self_metadata data l
            = (Returned (to_xml_string
                 (Element tag attrs
                    (children ++
                     [_to_xml_node py_str singular self_metadata "links"
                        links_val]))), l))
       ∧ (∀ links_val text,
            dict_lookup data "links" = Some links_val →
            _to_xml_node py_str singular self_metadata root_key root_val
            = Text text →
            (∃ to_xml, root_val = PObj to_xml)
            ∧ ∃ msg,
                default py_str py_repr singular to_xml_string self_metadata
                  data l
                = (Raised (OtherException "HierarchyRequestErr" msg), l))).
Proof.
  split.
  - intros Hroots. unfold default, bind.
    rewrite default_loop_from_start. cbv zeta.
    destruct (non_links_keys data) as [|k1 [|k2 roots]].
    + unfold LOG, raise. eauto.
    + destruct Hroots as [?|Hlen]; [done|]. cbn [length] in Hlen. lia.
    + eauto.
  - intros root_key Hroots.
    assert (root_key ∈ keys data) as Hin.
    { assert (root_key ∈ non_links_keys data) as Hf
        by (rewrite Hroots; by left).
      by apply list_elem_of_filter in Hf as [_ ?]. }
    apply dict_lookup_is_Some in Hin as [root_val Hval].
    exists root_val. split; [done|]. split.
    { destruct root_val; cbn [_to_xml_node base_to_xml_node]; eauto. }
    split.
    + intros Hnolinks. unfold default, bind.
      rewrite default_loop_from_start, Hroots.
      rewrite bool_decide_false by done.
      unfold dict_getitem. rewrite Hval. reflexivity.
    + split.
      * intros links_val tag attrs children Hlinks Hnode.
        unfold default, bind. rewrite default_loop_from_start, Hroots.
        rewrite bool_decide_true
          by (apply dict_lookup_is_Some; by rewrite Hlinks).
        unfold dict_getitem. rewrite Hval, Hlinks. cbn [ret].
        by rewrite Hnode.
      * intros links_val text Hlinks Hnode. split.
        { destruct root_val; cbn [_to_xml_node base_to_xml_node] in Hnode;
            try discriminate Hnode. eauto. }
        unfold default, bind. rewrite default_loop_from_start, Hroots.
        rewrite bool_decide_true
          by (apply dict_lookup_is_Some; by rewrite Hlinks).
        unfold dict_getitem. rewrite Hval, Hlinks. cbn [ret].
        rewrite Hnode. cbn [appendChild]. unfold raise. eauto.
Qed.

End XMLFacts.

(** A mapping with [links] and one root key: the root element is named by
    the key and ends with the [links] element.  A root rendered as a text
    node cannot take the [links] element.  An empty mapping raises. *)
Lemma xml_default_root_and_links_witness :
  (non_links_keys sample_plain_root = ["instance"]
   ∧ ∃ attrs children,
       ReddwarfXMLDictSerializer.default sample_py_str sample_py_repr
         sample_singular sample_to_xml_string (Metadata [] [])
         sample_plain_root []
       = (Returned (sample_to_xml_string
            (Element "instance" attrs
               (children ++ [Element "links" [] []]))), []))
  ∧ (non_links_keys sample_text_root = ["instance"]
     ∧ dict_lookup sample_text_root "links" = Some (PList [])
     ∧ ∃ msg,
         ReddwarfXMLDictSerializer.default sample_py_str sample_py_repr
           sample_singular sample_to_xml_string (Metadata [] [])
           sample_text_root []
         = (Raised (OtherException "HierarchyRequestErr" msg), []))
  ∧ ((non_links_keys [] = [] ∨ (2 ≤ length (non_links_keys []))%nat)
     ∧ ∃ msg,
         ReddwarfXMLDictSerializer.default sample_py_str sample_py_repr
           sample_singular sample_to_xml_string (Metadata [] []) [] []
         = (Raised (RuntimeError msg), [] ++ [(ERROR, msg)])).
Proof.
  split; [|split].
  - split; [reflexivity|].
    destruct (proj2 (xml_default_root_and_links sample_py_str sample_py_repr
                sample_singular sample_to_xml_string (Metadata [] [])
                sample_plain_root []) "instance" eq_refl)
      as (root_val & Hval & _ & _ & Hlinks & _).
    injection Hval as <-.
    eexists _, _. apply (Hlinks (PList [])); reflexivity.
  - split; [reflexivity|]. split; [reflexivity|].
    destruct (proj2 (xml_default_root_and_links sample_py_str sample_py_repr
                sample_singular sample_to_xml_string (Metadata [] [])
                sample_text_root []) "instance" eq_refl)
      as (root_val & Hval & _ & _ & _ & Htext).
    injection Hval as <-.
    exact (proj2 (Htext (PList []) "building" eq_refl eq_refl)).
  - split; [left; reflexivity|].
    exact (proj1 (xml_default_root_and_links sample_py_str sample_py_repr
             sample_singular sample_to_xml_string (Metadata [] []) [] [])
             (or_introl eq_refl)).
Defined.

(** The claim C1 as stated fails for a root value with its own [to_xml]:
    [instance] is the only key besides [links], yet the root of the document
    is the [server] element that the value returns, not an element named
    [instance]. *)
Lemma custom_to_xml_root_counterexample :
  non_links_keys sample_custom_root = ["instance"]
  ∧ ¬ (∃ attrs children,
         ReddwarfXMLDictSerializer.default sample_py_str sample_py_repr
           sample_singular sample_to_xml_string (Metadata [] [])
           sample_custom_root []
         = (Returned (sample_to_xml_string
              (Element "instance" attrs children)), [])).
Proof.
  split; [reflexivity|].
  intros (attrs & children & Hrun). vm_compute in Hrun. discriminate Hrun.
Qed.

(** X9.  Where the projections and the negotiated type do not match: a
    payload with a JSON projection only gives it for XML too, and a payload
    with an XML projection only gives its raw data for JSON. *)
Remark result_data_without_matching_projection (r : Result) :
  (∀ json, data_for_xml (_data r) = None →
           data_for_json (_data r) = Some json →
           Result_data r "application/xml" = json)
  ∧ (data_for_json (_data r) = None →
     Result_data r "application/json" = raw (_data r)).
Proof.
  unfold Result_data. split.
  - by intros json -> ->.
  - by intros ->.
Qed.

(** ** Worked examples *)

Example url_version_examples :
  url_version (request_of "/v1/instances" []) = Some "1"
  ∧ url_version (request_of "/v1.0/instances/7" []) = Some "1.0"
  ∧ url_version (request_of "/tenant/v2./x" []) = Some "2."
  ∧ url_version (request_of "/instances" []) = None
  ∧ url_version (request_of "/views/instances" []) = None.
Proof. repeat split; vm_compute; reflexivity. Qed.

Example accept_version_examples :
  accept_version sample_versioned_request = Some "2"
  ∧ accept_version (request_of "/"
      [("ACCEPT", "text/html, application/vnd.openstack.reddwarf+xml;q=0.5;version=1.0")])
    = Some "1.0"
  ∧ accept_version (request_of "/"
      [("ACCEPT", "application/vnd.openstack.reddwarf;version=3")])
    = Some "3"
  ∧ accept_version (request_of "/"
      [("ACCEPT", "application/vnd.openstack.reddwarf+json; version=2")])
    = None
  ∧ accept_version (request_of "/" [("ACCEPT", "application/json")]) = None
  ∧ accept_version (request_of "/" []) = None.
Proof. repeat split; vm_compute; reflexivity. Qed.

Example get_error_name_examples :
  _get_error_name (http_new HTTPNotFound None) = "itemNotFound"
  ∧ _get_error_name (http_new HTTPRequestEntityTooLarge None) = "overLimit"
  ∧ _get_error_name (http_new HTTPConflict None) = "conflict"
  ∧ _get_error_name (http_new HTTPNotAcceptable None) = "notAcceptable"
  ∧ _get_error_name (http_new HTTPUnprocessableEntity None)
    = "unprocessableEntity"
  ∧ _get_error_name (http_new HTTPServerError None) = "serverError".
Proof. repeat split; vm_compute; reflexivity. Qed.

(** The not-found scenario of the specification. *)
Example fault_data_not_found :
  fault_data (λ _, "The resource could not be found.")
    (MkFault (http_new HTTPNotFound (Some "Instance 7 cannot be found.")))
  = [("itemNotFound",
      PDict [("code", PInt 404);
             ("message", PStr "Instance 7 cannot be found.")])]
  ∧ fault_data (λ _, "The resource could not be found.")
      (MkFault (http_new HTTPNotFound None))
    = [("itemNotFound",
        PDict [("code", PInt 404);
               ("message", PStr "The resource could not be found.")])].
Proof. split; reflexivity. Qed.

(** Fields registered as attributes of [instance] and [volume] become
    attributes, the nested mapping a child element. *)
Example to_xml_node_instance :
  ReddwarfXMLDictSerializer._to_xml_node sample_py_str sample_singular
    (Metadata [] []) "instance"
    (PDict [("id", PStr "1"); ("volume", PDict [("size", PInt 2)]);
            ("links", PList [PDict [("href", PStr "h"); ("rel", PStr "self")]])])
  = Element "instance" [("id", "1")]
      [ Element "volume" [("size", "2")] [];
        Element "links" []
          [ Element "link" [("href", "h"); ("rel", "self")] [] ] ].
Proof. vm_compute. reflexivity. Qed.

Example invert_exception_map :
  _invert_dict_list exception_map !! reddwarf "Forbidden"
  = Some HTTPUnauthorized
  ∧ _invert_dict_list exception_map !! reddwarf "QuotaExceeded"
    = Some HTTPRequestEntityTooLarge
  ∧ _invert_dict_list exception_map !! reddwarf "DnsRecordNotFound" = None
  ∧ _get_http_error (_invert_dict_list exception_map)
      (ReddwarfError "DnsRecordNotFound" "no record") = HTTPBadRequest.
Proof. repeat split; vm_compute; reflexivity. Qed.

(** * Further properties of the module *)

(** ** What a match consumes *)

Lemma string_app_cons (x : ascii) (a b : string) :
  String x a +:+ b = String x (a +:+ b).
Proof. reflexivity. Qed.

Lemma string_app_assoc (a b c : string) : (a +:+ b) +:+ c = a +:+ b +:+ c.
Proof.
  induction a as [|x a IH]; [done|]. by rewrite !string_app_cons, IH.
Qed.

Lemma string_app_nil_r (a : string) : a +:+ "" = a.
Proof.
  induction a as [|x a IH]; [done|]. by rewrite string_app_cons, IH.
Qed.

Lemma all_digits_app a b :
  all_digits (a +:+ b) = all_digits a && all_digits b.
Proof.
  induction a as [|x a IH]; [done|].
  rewrite string_app_cons. cbn [all_digits]. by rewrite IH, andb_assoc.
Qed.

(** A greedy repetition whose continuation cannot fail takes the longest run. *)
Lemma star_greedy_longest {R} p s (k : string → option R) x :
  (∀ s', is_Some (k s')) →
  Re.star_greedy p s k = Some x →
  ∃ a s', s = a +:+ s' ∧ k s' = Some x
          ∧ (∀ c, PyStr.mem c a = true → p c = true)
          ∧ (∀ c t, s' = String c t → p c = false).
Proof.
  intros Hk. revert x. induction s as [|c s IH]; intros x; simpl.
  - intros Hx. exists EmptyString, EmptyString. by repeat split.
  - destruct (p c) eqn:Hpc.
    + destruct (Re.star_greedy p s k) as [r|] eqn:Hs.
      * intros [= <-]. destruct (IH r eq_refl) as (a & s' & -> & Hks & Ha & Hs').
        exists (String c a), s'. repeat split; [done| |done].
        intros c'. simpl. destruct (decide (c = c')) as [<-|]; auto.
      * destruct (star_greedy_total p s k Hk) as [r Hr]. congruence.
    + intros Hx. exists EmptyString, (String c s).
      repeat split; [done|done|]. by intros c' t [= <- _].
Qed.

Lemma all_digits_mem a :
  (∀ c, PyStr.mem c a = true → Re.digit c = true) → all_digits a = true.
Proof.
  induction a as [|x a IH]; intros Hmem; [done|]. cbn [all_digits].
  rewrite (Hmem x) by (simpl; by rewrite decide_True).
  apply IH. intros c Hc. apply Hmem. simpl.
  by destruct (decide (x = c)).
Qed.

(** With a continuation that cannot fail, the named group takes the longest
    version number at the front of the text. *)
Lemma version_no_longest {R} s cap (k : string → option string → option R) x :
  (∀ s' c, is_Some (k s' c)) →
  Re.run Re.version_no s cap k = Some x →
  ∃ v rest, s = v +:+ rest ∧ is_version_no v
            ∧ k rest (Some v) = Some x ∧ no_digit_ahead rest = true.
Proof.
  intros Hk. unfold Re.version_no. rewrite run_Group, run_Seq, run_Plus.
  destruct s as [|d s0]; [done|]. destruct (Re.digit d) eqn:Hd; [|done].
  unfold Re.star. intros Hrun.
  apply star_greedy_longest in Hrun as (a & s1 & -> & Hk1 & Ha & Hs1).
  2:{ intros s'. rewrite run_Seq, run_Opt.
      destruct (Re.run (Re.Lit ".") _ _ _); [done|].
      rewrite run_Star. by apply star_greedy_total. }
  apply all_digits_mem in Ha.
  rewrite run_Seq, run_Opt, run_Lit in Hk1.
  destruct (Re.strip_prefix "." s1) as [s2|] eqn:Hdot.
  - apply strip_prefix_Some in Hdot as ->.
    rewrite run_Star in Hk1. unfold Re.star in Hk1.
    destruct (Re.star_greedy Re.digit s2 _) as [r|] eqn:Hs2.
    2:{ destruct (star_greedy_total Re.digit s2
          (λ s', k s' (Some (PyStr.consumed (String d (a +:+ "." +:+ s2)) s')))
          (λ s', Hk s' _)) as [r Hr]. congruence. }
    injection Hk1 as ->.
    apply star_greedy_longest in Hs2 as (b & s3 & -> & Hk3 & Hb & Hs3);
      [|intros; apply Hk].
    apply all_digits_mem in Hb.
    exists (String d a +:+ "." +:+ b), s3.
    assert (String d (a +:+ "." +:+ b +:+ s3)
            = (String d a +:+ "." +:+ b) +:+ s3) as Heq.
    { by rewrite !string_app_cons, !string_app_assoc. }
    rewrite Heq in Hk3 |- *. rewrite consumed_app in Hk3.
    split; [done|]. split.
    + exists (String d a), b. cbn [is_number all_digits]. rewrite Hd, Ha.
      repeat split; [done|]. by right.
    + split; [done|]. destruct s3 as [|c t]; [done|].
      simpl. by rewrite (Hs3 c t).
  - rewrite run_Star in Hk1. unfold Re.star in Hk1.
    rewrite star_greedy_stop in Hk1 by done.
    exists (String d a), s1.
    change (String d (a +:+ s1)) with (String d a +:+ s1) in Hk1 |- *.
    rewrite consumed_app in Hk1. split; [done|]. split.
    + exists (String d a), EmptyString. cbn [is_number all_digits].
      rewrite Hd, Ha. repeat split. by left.
    + split; [done|]. destruct s1 as [|c t]; [done|].
      simpl. by rewrite (Hs1 c t).
Qed.

(** A search succeeds at the first start position where the pattern
    matches. *)
Lemma search_first r s m :
  Re.search r s = Some m →
  ∃ pre s0, s = pre +:+ s0
    ∧ Re.run r s0 None (λ _ cap, Some cap) = Some m
    ∧ (∀ p1 p2, pre = p1 +:+ p2 → p2 ≠ EmptyString →
         Re.run r (p2 +:+ s0) None (λ _ cap, Some cap) = None).
Proof.
  induction s as [|c s IH].
  - simpl. destruct (Re.run r EmptyString None _) as [m'|] eqn:Hr; [|done].
    intros [= <-]. exists EmptyString, EmptyString. repeat split; [done|].
    intros p1 p2 Heq Hp2. destruct p1, p2; done.
  - cbn [Re.search].
    destruct (Re.run r (String c s) None _) as [m'|] eqn:Hr.
    + intros [= <-]. exists EmptyString, (String c s). repeat split; [done|].
      intros p1 p2 Heq Hp2. destruct p1, p2; done.
    + intros (pre & s0 & -> & Hrun & Hfirst)%IH.
      exists (String c pre), s0. repeat split; [done|].
      intros p1 p2 Heq Hp2. destruct p1 as [|c1 p1].
      * change (EmptyString +:+ p2) with p2 in Heq. subst p2. exact Hr.
      * rewrite string_app_cons in Heq. injection Heq as _ Heq.
        by apply (Hfirst p1 p2).
Qed.

Lemma run_Lit_inv {R} l s cap (k : string → option string → option R) x :
  Re.run (Re.Lit l) s cap k = Some x →
  ∃ s', s = l +:+ s' ∧ k s' cap = Some x.
Proof.
  rewrite run_Lit. destruct (Re.strip_prefix l s) as [s'|] eqn:Hp; [|done].
  apply strip_prefix_Some in Hp. eauto.
Qed.

Lemma run_Class_inv {R} p s cap (k : string → option string → option R) x :
  Re.run (Re.Class p) s cap k = Some x →
  ∃ c s', s = String c s' ∧ k s' cap = Some x.
Proof.
  rewrite run_Class. destruct s as [|c s']; [done|].
  destruct (p c); [|done]. eauto.
Qed.

Lemma star_lazy_inv {R} p s (k : string → option R) x :
  Re.star_lazy p s k = Some x → ∃ a s', s = a +:+ s' ∧ k s' = Some x.
Proof.
  induction s as [|c s IH]; simpl.
  - destruct (k EmptyString) eqn:Hk; [|done].
    intros [= <-]. by exists EmptyString, EmptyString.
  - destruct (k (String c s)) eqn:Hk.
    + intros [= <-]. by exists EmptyString, (String c s).
    + destruct (p c); [|done]. intros (a & s' & -> & Hs')%IH.
      by exists (String c a), s'.
Qed.

(** X1.  A URL version is what the pattern takes at the first place of the
    path where [/v] is followed by a digit: a run of digits, possibly a dot
    and further digits, up to a character that is no digit. *)
Theorem url_version_first_longest_match (req : Request) (v : string) :
  url_version req = Some v →
  ∃ pre rest, path req = pre +:+ "/v" +:+ v +:+ rest
    ∧ is_version_no v ∧ no_digit_ahead rest = true
    ∧ (∀ p1 p2, pre = p1 +:+ p2 → p2 ≠ EmptyString →
         ¬ version_segment_at (p2 +:+ "/v" +:+ v +:+ rest)).
Proof.
  unfold url_version.
  destruct (Re.search versioned_url_re (path req)) as [m|] eqn:Hsearch;
    [|done].
  simpl. intros ->.
  apply search_first in Hsearch as (pre & s0 & Hpath & Hrun & Hfirst).
  unfold versioned_url_re in Hrun. rewrite run_Seq in Hrun.
  apply run_Lit_inv in Hrun as (s1 & -> & Hrun).
  apply version_no_longest in Hrun as (v' & rest & -> & Hv & [= ->] & Hrest);
    [|by intros].
  exists pre, rest. repeat split; [done..|].
  intros p1 p2 Heq Hp2 Hat.
  apply (proj1 (versioned_url_re_here _)) in Hat.
  rewrite (Hfirst p1 p2 Heq Hp2) in Hat. by destruct Hat.
Qed.

Lemma url_version_first_longest_match_witness :
  url_version (request_of "/tenant/v1.0/instances/v2" []) = Some "1.0"
  ∧ ∃ pre rest,
      "/tenant/v1.0/instances/v2" = pre +:+ "/v" +:+ "1.0" +:+ rest
      ∧ is_version_no "1.0" ∧ no_digit_ahead rest = true.
Proof.
  assert (url_version (request_of "/tenant/v1.0/instances/v2" []) = Some "1.0")
    as Hv by (vm_compute; reflexivity).
  split; [exact Hv|].
  destruct (url_version_first_longest_match _ _ Hv)
    as (pre & rest & Hpath & Hshape & Hrest & _).
  exists pre, rest. split; [exact Hpath|]. split; [exact Hshape|exact Hrest].
Defined.

(** The shape of a header in which the pattern of [accept_version] finds a
    version. *)
Lemma accept_version_re_shape s v :
  group_or_none (Re.search accept_version_re s) = Some v →
  ∃ pre c1 c2 fmt rest,
    s = pre +:+ "application/vnd" +:+ String c1 ("openstack" +:+
          String c2 ("reddwarf" +:+ fmt +:+ ";version=" +:+ v +:+ rest))
    ∧ (fmt = EmptyString ∨ ∃ c f, fmt = String "+" (String c f))
    ∧ is_version_no v ∧ no_digit_ahead rest = true.
Proof.
  destruct (Re.search accept_version_re s) as [m|] eqn:Hsearch; [|done].
  simpl. intros ->.
  apply search_first in Hsearch as (pre0 & s0 & -> & Hrun & _).
  unfold accept_version_re in Hrun.
  rewrite run_Seq, run_Star in Hrun. unfold Re.star in Hrun.
  apply star_lazy_inv in Hrun as (a & s1 & -> & Hrun).
  rewrite run_Seq in Hrun. apply run_Lit_inv in Hrun as (s2 & -> & Hrun).
  rewrite run_Seq in Hrun.
  apply run_Class_inv in Hrun as (c1 & s3 & -> & Hrun).
  rewrite run_Seq in Hrun. apply run_Lit_inv in Hrun as (s4 & -> & Hrun).
  rewrite run_Seq in Hrun.
  apply run_Class_inv in Hrun as (c2 & s5 & -> & Hrun).
  rewrite run_Seq in Hrun. apply run_Lit_inv in Hrun as (s6 & -> & Hrun).
  rewrite run_Seq, run_Opt in Hrun.
  assert (∀ s7,
    Re.run (Re.Seq (Re.Lit ";version=") Re.version_no) s7 None
      (λ _ cap, Some cap) = Some (Some v) →
    ∃ rest, s7 = ";version=" +:+ v +:+ rest
            ∧ is_version_no v ∧ no_digit_ahead rest = true) as Htail.
  { intros s7. rewrite run_Seq. intros (s8 & -> & Hv)%run_Lit_inv.
    apply version_no_longest in Hv as (v' & rest & -> & Hshape & [= ->] & Hr);
      [|by intros].
    eauto. }
  exists (pre0 +:+ a), c1, c2.
  destruct (Re.run (Re.Seq (Re.Lit "+") (Re.Plus false Re.dot)) s6 None _)
    as [y|] eqn:Hgroup.
  - injection Hrun as ->. rewrite run_Seq in Hgroup.
    apply run_Lit_inv in Hgroup as (s7 & -> & Hgroup).
    rewrite run_Plus in Hgroup. destruct s7 as [|c s7]; [done|].
    destruct (Re.dot c); [|done]. unfold Re.star in Hgroup.
    apply star_lazy_inv in Hgroup as (f & s8 & -> & Hgroup).
    apply Htail in Hgroup as (rest & -> & Hshape & Hrest).
    exists (String "+" (String c f)), rest.
    split; [by rewrite !string_app_cons, !string_app_assoc|].
    split; [right; eauto|done].
  - apply Htail in Hrun as (rest & -> & Hshape & Hrest).
    exists EmptyString, rest.
    split; [by rewrite !string_app_assoc|]. split; [by left|done].
Qed.

(** X2.  A version is read from the [Accept] header only behind the vendor
    media type: the header then contains [application/vnd], any character,
    [openstack], any character, [reddwarf], nothing or [+] and at least one
    character, and [;version=] directly followed by the version, which is a
    run of digits, possibly a dot and further digits, not continued by a
    digit.  A header without the literal [;version=] declares no version. *)
Theorem accept_version_needs_vendor_parameter (req : Request) :
  (∀ v, accept_version req = Some v →
     ∃ pre c1 c2 fmt rest,
       accept_header req
       = pre +:+ "application/vnd" +:+ String c1 ("openstack" +:+
           String c2 ("reddwarf" +:+ fmt +:+ ";version=" +:+ v +:+ rest))
       ∧ (fmt = EmptyString ∨ ∃ c f, fmt = String "+" (String c f))
       ∧ is_version_no v ∧ no_digit_ahead rest = true)
  ∧ (¬ occurs ";version=" (accept_header req) → accept_version req = None).
Proof.
  split.
  - intros v. unfold accept_version. apply accept_version_re_shape.
  - intros Hno. destruct (accept_version req) as [v|] eqn:Hv; [|done].
    destruct Hno. unfold accept_version in Hv.
    apply accept_version_re_shape in Hv
      as (pre & c1 & c2 & fmt & rest & Hs & _).
    fold (accept_header req) in Hs.
    exists (pre +:+ "application/vnd" +:+ String c1 ("openstack" +:+
              String c2 ("reddwarf" +:+ fmt))), (v +:+ rest).
    rewrite Hs. by rewrite !string_app_assoc, !string_app_cons,
      !string_app_assoc, !string_app_cons, !string_app_assoc.
Qed.

Lemma accept_version_needs_vendor_parameter_witness :
  accept_version sample_versioned_request = Some "2"
  ∧ ∃ pre c1 c2 fmt rest,
      accept_header sample_versioned_request
      = pre +:+ "application/vnd" +:+ String c1 ("openstack" +:+
          String c2 ("reddwarf" +:+ fmt +:+ ";version=" +:+ "2" +:+ rest))
      ∧ is_version_no "2".
Proof.
  assert (accept_version sample_versioned_request = Some "2") as Hv
    by (vm_compute; reflexivity).
  split; [exact Hv|].
  destruct (proj1 (accept_version_needs_vendor_parameter
                     sample_versioned_request) "2" Hv)
    as (pre & c1 & c2 & fmt & rest & Hs & _ & Hshape & _).
  exists pre, c1, c2, fmt, rest. split; [exact Hs|exact Hshape].
Defined.

(** ** Negotiation and the inverted map *)

(** X3.  Whatever the path, the header and the matcher of [webob] are, the
    negotiated content type is [application/json] or [application/xml]. *)
Theorem negotiated_type_is_json_or_xml
    (best_match : option string → list string → option string)
    (req : Request) :
  best_match_content_type best_match req ∈
    ["application/json"; "application/xml"].
Proof.
  destruct (best_match_content_type_cases best_match req) as [->| ->].
  - by left.
  - right; by left.
Qed.

Lemma invert_from_app m t1 t2 :
  invert_from m (t1 ++ t2) = invert_from (invert_from m t1) t2.
Proof. unfold invert_from. by rewrite foldl_app. Qed.

(** X4.  The inverted dictionary maps an exception class to the status
    class of the last item, in iteration order, whose list names it, and has
    no entry for a class that no list names. *)
Theorem invert_dict_list_last_listing
    (table : list (http_class * list exc_class)) (t : exc_class) :
  (∀ k, _invert_dict_list table !! t = Some k ↔
        ∃ pre values post,
          table = pre ++ (k, values) :: post ∧ t ∈ values
          ∧ ∀ k' values', (k', values') ∈ post → t ∉ values')
  ∧ (_invert_dict_list table !! t = None ↔
     ∀ k values, (k, values) ∈ table → t ∉ values).
Proof.
  split; [|apply invert_dict_list_None].
  intros k. change (_invert_dict_list table) with (invert_from ∅ table).
  split.
  - induction table as [|[k' values'] table IH] using rev_ind; [done|].
    rewrite invert_from_app, invert_from_cons. cbn [invert_from foldl].
    rewrite invert_inner.
    destruct (bool_decide (t ∈ values')) eqn:Hd.
    + intros [= ->]. apply bool_decide_eq_true in Hd.
      exists table, values', []. repeat split; [done|].
      by intros ? ? ?%elem_of_nil.
    + apply bool_decide_eq_false in Hd.
      intros (pre & values & post & -> & Hin & Hpost)%IH.
      exists pre, values, (post ++ [(k', values')]).
      split; [by rewrite <- app_assoc|]. split; [done|].
      intros k2 values2 [?|[= -> ->]%list_elem_of_singleton]%elem_of_app;
        [by eapply Hpost|done].
  - intros (pre & values & post & -> & Hin & Hpost).
    rewrite invert_from_app, invert_from_cons.
    rewrite invert_from_unlisted by done.
    rewrite invert_inner. by rewrite bool_decide_true.
Qed.

(** A class listed twice gets the status of the later item. *)
Lemma invert_dict_list_last_listing_witness :
  (∃ pre values post,
     sample_double_map = pre ++ (HTTPBadRequest, values) :: post
     ∧ reddwarf "UserNotFound" ∈ values
     ∧ ∀ k' values', (k', values') ∈ post → reddwarf "UserNotFound" ∉ values')
  ∧ _invert_dict_list sample_double_map !! reddwarf "UserNotFound"
    = Some HTTPBadRequest.
Proof.
  assert (∃ pre values post,
     sample_double_map = pre ++ (HTTPBadRequest, values) :: post
     ∧ reddwarf "UserNotFound" ∈ values
     ∧ ∀ k' values', (k', values') ∈ post → reddwarf "UserNotFound" ∉ values')
    as Hlast.
  { exists [(HTTPNotFound, [reddwarf "NotFound"; reddwarf "UserNotFound"])],
      [reddwarf "BadRequest"; reddwarf "UserNotFound"], [].
    split; [reflexivity|]. split; [right; left|].
    by intros ? ? ?%elem_of_nil. }
  split; [exact Hlast|].
  exact (proj2 (proj1 (invert_dict_list_last_listing sample_double_map
                         (reddwarf "UserNotFound")) HTTPBadRequest) Hlast).
Defined.

(** ** Running an action *)

Section ExecuteActionMore.

Variable format_exc : py_exception → string.
Variable super_execute_action : Request → M action_result.

(** Past the test on the controller [execute_action] always returns (the
    text of an exception is taken to render).  For an action the controller
    does not have it returns a 404 fault without running anything and
    without logging; a dictionary returned by the action is wrapped into a
    result with status 200 and any other value is passed on; an exception of
    the action becomes a fault and leaves exactly one more line in the
    log. *)
Lemma execute_action_returns_past_test
    (map : gmap exc_class http_class) (has_action : bool) (req : Request)
    (l : log) :
  ∃ r l',
    execute_action format_exc super_execute_action map has_action req l
    = (Returned r, l')
    ∧ (has_action = false →
       r = AFault (MkFault (http_new HTTPNotFound None)) ∧ l' = l)
    ∧ (has_action = true →
       ∀ result l1, super_execute_action req l = (Returned result, l1) →
       l' = l1
       ∧ r = match result with
             | ADict d => AResult (MkResult (Payload (PDict d) None None) 200)
             | _ => result
             end)
    ∧ (has_action = true →
       ∀ error l1, super_execute_action req l = (Raised error, l1) →
       ∃ f entry, r = AFault f ∧ l' = l1 ++ [entry]).
Proof.
  unfold execute_action. destruct has_action; cbn [negb].
  - unfold try_except, bind.
    destruct (super_execute_action req l) as [[result|error] l1] eqn:Hsuper.
    + eexists _, _. split; [reflexivity|]. split; [done|]. split.
      * by intros _ result' l1' [= <- <-].
      * by intros _ error l1' [=].
    + destruct error as [cls msg|h|cls msg];
        (eexists _, _; split; [reflexivity|]; split; [done|]; split;
         [by intros _ ? ? [=]|intros _ ? ? [= <- <-]; eauto]).
  - eexists _, _. split; [reflexivity|]. by repeat split.
Qed.

(** X5.  With the exceptions of the action being instances of [Exception],
    and their text taken to render, [execute_action] raises in one case only,
    an action name that is [None]: the test on the controller then raises
    [TypeError] in front of the [try], before anything is run or logged.
    For every action name that is a string it returns: a 404 fault, with
    nothing run and nothing logged, when the controller has no such action;
    otherwise a dictionary returned by the action is wrapped into a result
    with status 200 and any other value is passed on, and an exception of
    the action becomes a fault and leaves exactly one more line in the
    log. *)
Theorem execute_action_raises_only_without_name
    (map : gmap exc_class http_class) (controller : string → bool)
    (action : option string) (req : Request) (l : log) :
  (action = None →
     ∃ msg,
       execute_action_by_name format_exc super_execute_action map controller
         action req l
       = (Raised (OtherException "TypeError" msg), l))
  ∧ (∀ name, action = Some name →
       ∃ r l',
         execute_action_by_name format_exc super_execute_action map
           controller action req l
         = (Returned r, l')
         ∧ (controller name = false →
            r = AFault (MkFault (http_new HTTPNotFound None)) ∧ l' = l)
         ∧ (controller name = true →
            ∀ result l1, super_execute_action req l = (Returned result, l1) →
            l' = l1
            ∧ r = match result with
                  | ADict d =>
                      AResult (MkResult (Payload (PDict d) None None) 200)
                  | _ => result
                  end)
         ∧ (controller name = true →
            ∀ error l1, super_execute_action req l = (Raised error, l1) →
            ∃ f entry, r = AFault f ∧ l' = l1 ++ [entry])).
Proof.
  split.
  - intros ->. unfold execute_action_by_name, controller_lacks, bind, raise.
    eauto.
  - intros name ->.
    unfold execute_action_by_name, controller_lacks, bind, ret.
    rewrite negb_involutive.
    apply execute_action_returns_past_test.
Qed.

(** X6.  An [HTTPError] raised by the action is wrapped as it is, with its
    own class and detail, and logged at debug level.  Any other exception
    outside the [ReddwarfError] family is logged as an exception and becomes
    a fault of class [HTTPInternalServerError] whose detail is the text of
    the exception, so that a non-empty text is the message of the fault
    document. *)
Theorem execute_action_foreign_errors
    (map : gmap exc_class http_class) (req : Request) (l l1 : log) :
  (∀ h, super_execute_action req l = (Raised (HTTPError h), l1) →
     execute_action format_exc super_execute_action map true req l
     = (Returned (AFault (MkFault h)),
        l1 ++ [(DEBUG, format_exc (HTTPError h))]))
  ∧ (∀ cls msg,
       super_execute_action req l = (Raised (OtherException cls msg), l1) →
       execute_action format_exc super_execute_action map true req l
       = (Returned (AFault (MkFault
            (http_new HTTPInternalServerError (Some msg)))),
          l1 ++ [(EXCEPTION, msg)])
       ∧ (msg ≠ EmptyString →
          ∀ explanation,
            fault_data explanation
              (MkFault (http_new HTTPInternalServerError (Some msg)))
            = [("instanceFault",
                PDict [("code", PInt 500); ("message", PStr msg)])])).
Proof.
  split.
  - intros h Hsuper. unfold execute_action, try_except, bind. cbn [negb].
    by rewrite Hsuper.
  - intros cls msg Hsuper. split.
    + unfold execute_action, try_except, bind. cbn [negb].
      by rewrite Hsuper.
    + intros Hmsg explanation. unfold fault_data.
      cbn [wrapped_exc http_new detail]. by destruct msg.
Qed.

End ExecuteActionMore.

Lemma execute_action_raises_only_without_name_witness :
  (sample_controller "show" = true
   ∧ sample_returns_dict sample_plain_request []
     = (Returned (ADict [("instance", PDict [])]), [])
   ∧ execute_action_by_name sample_format_exc sample_returns_dict ∅
       sample_controller (Some "show") sample_plain_request []
     = (Returned (AResult (MkResult
          (Payload (PDict [("instance", PDict [])]) None None) 200)), []))
  ∧ (sample_controller "resize" = false
     ∧ execute_action_by_name sample_format_exc sample_returns_dict ∅
         sample_controller (Some "resize") sample_plain_request []
       = (Returned (AFault (MkFault (http_new HTTPNotFound None))), []))
  ∧ ∃ msg,
      execute_action_by_name sample_format_exc sample_returns_dict ∅
        sample_controller None sample_plain_request []
      = (Raised (OtherException "TypeError" msg), []).
Proof.
  split; [|split].
  - split; [reflexivity|]. split; [reflexivity|].
    destruct (proj2 (execute_action_raises_only_without_name
                sample_format_exc sample_returns_dict ∅ sample_controller
                (Some "show") sample_plain_request []) "show" eq_refl)
      as (r & l' & Hrun & _ & Hret & _).
    destruct (Hret eq_refl _ _ eq_refl) as [-> ->]. exact Hrun.
  - split; [reflexivity|].
    destruct (proj2 (execute_action_raises_only_without_name
                sample_format_exc sample_returns_dict ∅ sample_controller
                (Some "resize") sample_plain_request []) "resize" eq_refl)
      as (r & l' & Hrun & Hmissing & _).
    destruct (Hmissing eq_refl) as [-> ->]. exact Hrun.
  - exact (proj1 (execute_action_raises_only_without_name
             sample_format_exc sample_returns_dict ∅ sample_controller
             None sample_plain_request []) eq_refl).
Defined.

Lemma execute_action_foreign_errors_witness :
  sample_raises sample_value_error sample_plain_request []
  = (Raised (OtherException "ValueError" "bad id"), [])
  ∧ "bad id" ≠ EmptyString
  ∧ execute_action sample_format_exc (sample_raises sample_value_error) ∅
      true sample_plain_request []
    = (Returned (AFault (MkFault
         (http_new HTTPInternalServerError (Some "bad id")))),
       [] ++ [(EXCEPTION, "bad id")])
  ∧ fault_data (λ _, "explanation")
      (MkFault (http_new HTTPInternalServerError (Some "bad id")))
    = [("instanceFault",
        PDict [("code", PInt 500); ("message", PStr "bad id")])].
Proof.
  assert ("bad id" ≠ EmptyString) as Hne by discriminate.
  split; [reflexivity|]. split; [exact Hne|].
  destruct (proj2 (execute_action_foreign_errors sample_format_exc
              (sample_raises sample_value_error) ∅ sample_plain_request [] [])
              "ValueError" "bad id" eq_refl) as [Hrun Hdoc].
  split; [exact Hrun|exact (Hdoc Hne _)].
Defined.

(** ** Fault names *)

Lemma split_go_no_sep sep s cur :
  PyStr.contains sep s = false →
  PyStr.split_go sep s 0 cur = [cur +:+ s].
Proof.
  revert cur. induction s as [|c s IH]; intros cur Hno.
  - by rewrite string_app_nil_r.
  - cbn [PyStr.contains] in Hno. apply orb_false_elim in Hno as [Hpre Hno].
    cbn [PyStr.split_go]. rewrite Hpre, (IH _ Hno).
    by rewrite string_app_assoc.
Qed.

Lemma prefix_app (p s : string) : String.prefix p (p +:+ s) = true.
Proof.
  induction p as [|c p IH]; [by destruct s|].
  rewrite string_app_cons. cbn [String.prefix].
  by destruct (ascii_dec c c).
Qed.

Lemma split_http_prefix rest :
  PyStr.split "HTTP" ("HTTP" +:+ rest)
  = EmptyString :: PyStr.split_go "HTTP" rest 0 EmptyString.
Proof.
  unfold PyStr.split.
  pose proof (prefix_app "HTTP" rest) as Hp.
  change ("HTTP" +:+ rest)
    with (String "H" (String "T" (String "T" (String "P" rest)))) in *.
  cbn [PyStr.split_go]. rewrite Hp. reflexivity.
Qed.

(** X7.  For a class outside the table of named exceptions, the fault name
    is the class name without its [HTTP] prefix and with its first letter in
    lower case; a class name without any [HTTP] only has its first letter
    put in lower case. *)
Theorem get_error_name_strips_http (exc : http_exc) :
  (∀ rest, hc_name (exc_cls exc) = "HTTP" +:+ rest →
           ("HTTP" +:+ rest) ∉ keys named_exceptions →
           PyStr.contains "HTTP" rest = false →
           _get_error_name exc = lower_first rest)
  ∧ (PyStr.contains "HTTP" (hc_name (exc_cls exc)) = false →
     _get_error_name exc = lower_first (hc_name (exc_cls exc))).
Proof.
  split.
  - intros rest Hname Hnotin Hno. unfold _get_error_name. rewrite Hname.
    destruct (dict_lookup named_exceptions ("HTTP" +:+ rest)) as [n|] eqn:Hl.
    { destruct Hnotin. apply dict_lookup_is_Some. by rewrite Hl. }
    rewrite split_http_prefix. by rewrite (split_go_no_sep _ _ _ Hno).
  - intros Hno. unfold _get_error_name.
    destruct (dict_lookup named_exceptions (hc_name (exc_cls exc)))
      as [n|] eqn:Hl.
    { assert (hc_name (exc_cls exc) ∈ keys named_exceptions) as Hin
        by (apply dict_lookup_is_Some; by rewrite Hl).
      apply list_elem_of_In in Hin. simpl in Hin.
      repeat (destruct Hin as [Hin|Hin];
              [rewrite <- Hin in Hno; vm_compute in Hno; discriminate|]).
      destruct Hin. }
    unfold PyStr.split. by rewrite (split_go_no_sep _ _ _ Hno).
Qed.

Lemma get_error_name_strips_http_witness :
  hc_name (exc_cls (http_new HTTPConflict None)) = "HTTP" +:+ "Conflict"
  ∧ (("HTTP" +:+ "Conflict") ∉ keys named_exceptions)
  ∧ PyStr.contains "HTTP" "Conflict" = false
  ∧ _get_error_name (http_new HTTPConflict None) = "conflict".
Proof.
  assert (("HTTP" +:+ "Conflict") ∉ keys named_exceptions) as Hnotin.
  { intros Hin. apply list_elem_of_In in Hin. simpl in Hin.
    repeat (destruct Hin as [Hin|Hin]; [discriminate Hin|]). destruct Hin. }
  split; [reflexivity|]. split; [exact Hnotin|]. split; [reflexivity|].
  exact (proj1 (get_error_name_strips_http (http_new HTTPConflict None))
           "Conflict" eq_refl Hnotin eq_refl).
Defined.

(** X8.  No fault name begins with a capital letter. *)
Theorem get_error_name_not_capitalised (exc : http_exc) :
  starts_upper (_get_error_name exc) = false.
Proof.
  unfold _get_error_name.
  destruct (dict_lookup named_exceptions (hc_name (exc_cls exc)))
    as [n|] eqn:Hl.
  - unfold dict_lookup in Hl.
    destruct (list_find _ named_exceptions) as [[i [k v]]|] eqn:Hf; [|done].
    injection Hl as <-. apply list_find_Some in Hf as (Hi & _).
    apply list_elem_of_lookup_2, list_elem_of_In in Hi. simpl in Hi.
    repeat (destruct Hi as [[= _ <-]|Hi]; [reflexivity|]). destruct Hi.
  - destruct (default EmptyString (last _)) as [|c rest]; [done|].
    apply lower_char_not_upper.
Qed.

(** ** Projections of a result *)

(** [result_data_without_matching_projection] at a payload with a JSON
    projection only and at one with an XML projection only. *)
Lemma result_data_without_matching_projection_witness :
  (data_for_xml sample_json_only = None
   ∧ data_for_json sample_json_only = Some (PDict [("instance", PDict [])])
   ∧ Result_data (MkResult sample_json_only 200) "application/xml"
     = PDict [("instance", PDict [])])
  ∧ (data_for_json sample_xml_only = None
     ∧ Result_data (MkResult sample_xml_only 200) "application/json"
       = PStr "view").
Proof.
  split.
  - split; [reflexivity|]. split; [reflexivity|].
    exact (proj1 (result_data_without_matching_projection
                    (MkResult sample_json_only 200)) _ eq_refl eq_refl).
  - split; [reflexivity|].
    exact (proj2 (result_data_without_matching_projection
                    (MkResult sample_xml_only 200)) eq_refl).
Defined.

(** ** Pagination limits and the request context *)

Lemma extract_limits_lookup (params : gmap string string) (k : string) :
  _extract_limits params !! k
  = if bool_decide (k ∈ ["limit"; "marker"]) then params !! k else None.
Proof.
  unfold _extract_limits. rewrite map_lookup_filter.
  destruct (params !! k) as [v|]; simpl.
  - case_bool_decide as Hk.
    + by rewrite option_guard_True.
    + by rewrite option_guard_False.
  - by case_bool_decide.
Qed.

(** X10.  [_extract_limits] keeps the entries [limit] and [marker] of the
    parameters, with their values, and drops every other parameter. *)
Theorem extract_limits_keeps_limit_and_marker (params : gmap string string) :
  _extract_limits params !! "limit" = params !! "limit"
  ∧ _extract_limits params !! "marker" = params !! "marker"
  ∧ (∀ k, k ≠ "limit" → k ≠ "marker" → _extract_limits params !! k = None)
  ∧ _extract_limits params ⊆ params.
Proof.
  split; [by rewrite extract_limits_lookup|].
  split; [by rewrite extract_limits_lookup|]. split.
  - intros k Hl Hm. rewrite extract_limits_lookup.
    rewrite bool_decide_false; [done|].
    by intros [->|[->|?%elem_of_nil]%elem_of_cons]%elem_of_cons.
  - apply map_filter_subseteq.
Qed.

Lemma split_no_comma s :
  PyStr.contains "," s = false → PyStr.split "," s = [s].
Proof. intros Hno. unfold PyStr.split. by rewrite split_go_no_sep. Qed.

Section ContextMore.

Variable admin_roles : list string.

(** X11.  A request with a token always gets a context, and nothing is
    logged.  The context carries the token, the tenant and the user of the
    headers and the [limit] and [marker] of the query parameters as they
    are; path, headers and parameters of the request are left alone, a
    context that was there before is replaced, and extracting the context
    again changes nothing. *)
Theorem process_request_fills_context (request : Request) (tok : string)
    (l : log) :
  headers request !! "X-Auth-Token" = Some tok →
  ∃ ctx request',
    process_request admin_roles request l = (Returned request', l)
    ∧ context request' = Some ctx
    ∧ path request' = path request
    ∧ headers request' = headers request
    ∧ params request' = params request
    ∧ auth_tok ctx = tok
    ∧ tenant ctx = headers request !! "X-Tenant-Id"
    ∧ user ctx = headers request !! "X-User"
    ∧ limit ctx = params request !! "limit"
    ∧ marker ctx = params request !! "marker"
    ∧ process_request admin_roles request' l = (Returned request', l).
Proof.
  intros Htok. unfold process_request, bind. rewrite Htok.
  eexists _, _. split; [reflexivity|]. cbn [context path headers params].
  repeat split.
  - cbn [limit]. by rewrite extract_limits_lookup.
  - cbn [marker]. by rewrite extract_limits_lookup.
  - by rewrite Htok.
Qed.

(** X12.  Without an [X-Role] header, or with an empty one, the request is
    an administrator's exactly when the empty string is among the configured
    admin roles; with a header that has no comma, exactly when the lower-case
    form of the whole header is. *)
Theorem process_request_single_role (request : Request) (tok : string)
    (l : log) :
  headers request !! "X-Auth-Token" = Some tok →
  ∃ ctx request',
    process_request admin_roles request l = (Returned request', l)
    ∧ context request' = Some ctx
    ∧ (headers request !! "X-Role" = None
       ∨ headers request !! "X-Role" = Some EmptyString →
       (is_admin ctx = true ↔ EmptyString ∈ admin_roles))
    ∧ (∀ role, headers request !! "X-Role" = Some role →
               PyStr.contains "," role = false →
               (is_admin ctx = true ↔ PyStr.lower role ∈ admin_roles)).
Proof.
  intros Htok. unfold process_request, bind. rewrite Htok.
  eexists _, _. split; [reflexivity|]. split; [reflexivity|].
  cbn [is_admin].
  assert (∀ role, admin_loop admin_roles [role] = true
                  ↔ PyStr.lower role ∈ admin_roles) as Hone.
  { intros role. rewrite admin_loop_true. split.
    - by intros (r & ->%list_elem_of_singleton & ?).
    - intros Hin. exists role. split; [by left|done]. }
  split.
  - intros [-> | ->]; cbn [default]; apply (Hone EmptyString).
  - intros role -> Hno. cbn [default id from_option].
    rewrite (split_no_comma _ Hno). apply Hone.
Qed.

End ContextMore.

Lemma extract_limits_keeps_limit_and_marker_witness :
  "name" ≠ "limit" ∧ "name" ≠ "marker"
  ∧ params sample_paged_request !! "name" = Some "x"
  ∧ _extract_limits (params sample_paged_request) !! "name" = None
  ∧ _extract_limits (params sample_paged_request) !! "limit" = Some "20".
Proof.
  assert ("name" ≠ "limit") as Hl by discriminate.
  assert ("name" ≠ "marker") as Hm by discriminate.
  split; [exact Hl|]. split; [exact Hm|]. split; [vm_compute; reflexivity|].
  destruct (extract_limits_keeps_limit_and_marker (params sample_paged_request))
    as (Hlimit & _ & Hother & _).
  split; [exact (Hother "name" Hl Hm)|].
  rewrite Hlimit. vm_compute. reflexivity.
Defined.

Lemma process_request_fills_context_witness :
  headers sample_paged_request !! "X-Auth-Token" = Some "token"
  ∧ ∃ ctx request',
      process_request ["admin"] sample_paged_request [] = (Returned request', [])
      ∧ context request' = Some ctx
      ∧ tenant ctx = Some "t1" ∧ user ctx = None
      ∧ limit ctx = Some "20" ∧ marker ctx = Some "abc".
Proof.
  assert (headers sample_paged_request !! "X-Auth-Token" = Some "token")
    as Htok by (vm_compute; reflexivity).
  split; [exact Htok|].
  destruct (process_request_fills_context ["admin"] sample_paged_request
              "token" [] Htok)
    as (ctx & request' & Hrun & Hctx & _ & _ & _ & _ & Hten & Husr & Hlim
        & Hmark & _).
  exists ctx, request'. split; [exact Hrun|]. split; [exact Hctx|].
  rewrite Hten, Husr, Hlim, Hmark. vm_compute. by repeat split.
Defined.

Lemma process_request_single_role_witness :
  headers sample_user_request !! "X-Auth-Token" = Some "token"
  ∧ headers sample_user_request !! "X-Role" = Some "Admin"
  ∧ PyStr.contains "," "Admin" = false
  ∧ ∃ ctx request',
      process_request ["admin"] sample_user_request [] = (Returned request', [])
      ∧ context request' = Some ctx
      ∧ is_admin ctx = true.
Proof.
  assert (headers sample_user_request !! "X-Auth-Token" = Some "token")
    as Htok by (vm_compute; reflexivity).
  assert (headers sample_user_request !! "X-Role" = Some "Admin")
    as Hrole by (vm_compute; reflexivity).
  split; [exact Htok|]. split; [exact Hrole|]. split; [reflexivity|].
  destruct (process_request_single_role ["admin"] sample_user_request
              "token" [] Htok) as (ctx & request' & Hrun & Hctx & _ & Hone).
  exists ctx, request'. split; [exact Hrun|]. split; [exact Hctx|].
  apply (Hone "Admin" Hrole eq_refl). by left.
Defined.

(** ** The fault-wrapping middleware and the response headers *)

(** Membership in a list that is written out. *)
Ltac in_list :=
  first [ by left | by (right; left) | by (right; right; left)
        | by (right; right; right; left) ].

Section FaultWrapperMore.

Variable application : Request → M Response.

(** X13.  [FaultWrapper] never raises (the text of a caught exception is
    taken to render).  What it returns is the downstream response or a fault
    without detail, of status 400, 401, 404 or 500 (never 403); it writes to
    the log only when the downstream chain raised, and then exactly one
    line. *)
Theorem fault_wrapper_always_returns (req : Request) (l : log) :
  ∃ r l',
    FaultWrapper_call application req l = (Returned r, l')
    ∧ (∀ f, r = WFault f →
         detail (wrapped_exc f) = None
         ∧ status_int (wrapped_exc f) ∈ [400; 401; 404; 500])
    ∧ (∀ resp l1, application req l = (Returned resp, l1) → l' = l1)
    ∧ (∀ ex l1, application req l = (Raised ex, l1) →
         ∃ entry, l' = l1 ++ [entry]).
Proof.
  unfold FaultWrapper_call, try_except, bind.
  destruct (application req l) as [[resp|ex] l1] eqn:Happ.
  - destruct (decide (resp_status_int resp ∈ resp_codes)) as [Hcode|Hcode].
    + rewrite bool_decide_true by done.
      destruct (code_wrapper_find _ Hcode) as (i & cls & Hfind & Hcls).
      rewrite (headers_loop_found _ _ _ _ _ Hfind).
      destruct (bool_decide (_ ∈ _headerlist resp));
        (eexists _, _; split; [reflexivity|]; split;
         [|split; [by intros ? ? [= <- <-]|by intros ? ? [=]]]).
      * intros f [= <-]. split; [done|]. rewrite Hcls. unfold status_int.
        cbn [wrapped_exc http_new exc_cls].
        repeat case_bool_decide; cbn; in_list.
      * by intros f [=].
    + rewrite bool_decide_false by done.
      eexists _, _. split; [reflexivity|]. split; [by intros f [=]|].
      split; [by intros ? ? [= <- <-]|by intros ? ? [=]].
  - eexists _, _. split; [reflexivity|]. split.
    + intros f [= <-]. split; [done|]. cbn. in_list.
    + split; [by intros ? ? [=]|]. intros ? ? [= <- <-]. eauto.
Qed.

End FaultWrapperMore.

Lemma fault_wrapper_always_returns_witness :
  sample_broken_app sample_plain_request []
  = (Raised (RuntimeError "database is down"), [])
  ∧ ∃ r l',
      FaultWrapper_call sample_broken_app sample_plain_request []
      = (Returned r, l')
      ∧ ∃ entry, l' = [] ++ [entry].
Proof.
  split; [reflexivity|].
  destruct (fault_wrapper_always_returns sample_broken_app
              sample_plain_request []) as (r & l' & Hrun & _ & _ & Hlog).
  exists r, l'. split; [exact Hrun|]. exact (Hlog _ _ eq_refl).
Defined.

Section SerializeHeadersFacts.

Context {Action : Type}.
Variable super_serialize_headers :
  Response → body_data → Action → M Response.

(** X14.  After [serialize_headers] the status of the response is the status
    of the result envelope, whatever the base class had set, while headers
    and body are those the base class produced; 200 for the envelope that
    [execute_action] makes of a dictionary.  For data that is no result the
    response of the base class is returned as it is, and a failure of the
    base class is passed on. *)
Theorem serialize_headers_sets_result_status
    (response : Response) (data : body_data) (action : Action) (l l1 : log) :
  (∀ base, super_serialize_headers response data action l
           = (Returned base, l1) →
     ∃ out,
       serialize_headers super_serialize_headers response data action l
       = (Returned out, l1)
       ∧ _headerlist out = _headerlist base
       ∧ resp_body out = resp_body base
       ∧ (∀ r, data = BResult r → resp_status_int out = status r)
       ∧ (∀ d, data = BResult (Result_of_dict d) → resp_status_int out = 200)
       ∧ (∀ v, data = BOther v → out = base))
  ∧ (∀ e, super_serialize_headers response data action l = (Raised e, l1) →
       serialize_headers super_serialize_headers response data action l
       = (Raised e, l1)).
Proof.
  split.
  - intros base Hsuper. unfold serialize_headers, bind. rewrite Hsuper.
    destruct data as [r|v]; eexists; (split; [reflexivity|]).
    + repeat split; [by intros ? [= <-]|by intros ? [= ->]|by intros ? [=]].
    + repeat split; [by intros ? [=]|by intros ? [=]].
  - intros e Hsuper. unfold serialize_headers, bind. by rewrite Hsuper.
Qed.

End SerializeHeadersFacts.

Lemma serialize_headers_sets_result_status_witness :
  sample_super_headers (MkResponse 200 [] "") (BResult (MkResult sample_raw 201))
    tt []
  = (Returned (MkResponse 202 [("Content-Type", "application/json")] ""), [])
  ∧ ∃ out,
      serialize_headers sample_super_headers (MkResponse 200 [] "")
        (BResult (MkResult sample_raw 201)) tt []
      = (Returned out, [])
      ∧ resp_status_int out = 201
      ∧ _headerlist out = [("Content-Type", "application/json")].
Proof.
  split; [reflexivity|].
  destruct (proj1 (serialize_headers_sets_result_status sample_super_headers
              (MkResponse 200 [] "") (BResult (MkResult sample_raw 201)) tt
              [] []) _ eq_refl)
    as (out & Hrun & Hheaders & _ & Hstatus & _).
  exists out. split; [exact Hrun|].
  split; [exact (Hstatus _ eq_refl)|exact Hheaders].
Defined.

(** ** A resource without exception map, and the fault for an unsupported
    version *)

(** X15.  A resource built without an exception map, or with an empty one,
    answers every [ReddwarfError] of its actions with a fault of class
    [HTTPBadRequest]: status 400, name [badRequest], the text of the error
    as detail. *)
Theorem resource_without_map_answers_400
    (format_exc : py_exception → string)
    (super_execute_action : Request → M action_result)
    (exception_map : option (list (http_class * list exc_class)))
    (req : Request) (l l1 : log) (cls msg : string) :
  exception_map = None ∨ exception_map = Some [] →
  super_execute_action req l = (Raised (ReddwarfError cls msg), l1) →
  ∃ f,
    execute_action format_exc super_execute_action
      (Resource_model_exception_map exception_map) true req l
    = (Returned (AFault f), l1 ++ [(DEBUG, format_exc (ReddwarfError cls msg))])
    ∧ exc_cls (wrapped_exc f) = HTTPBadRequest
    ∧ status_int (wrapped_exc f) = 400
    ∧ detail (wrapped_exc f) = Some msg
    ∧ _get_error_name (wrapped_exc f) = "badRequest".
Proof.
  intros Hmap Hsuper. eexists. split.
  - by apply execute_action_reddwarf_error.
  - assert (Resource_model_exception_map exception_map = ∅) as ->
      by (by destruct Hmap as [-> | ->]).
    rewrite lookup_empty. by repeat split.
Qed.

Lemma resource_without_map_answers_400_witness :
  (@None (list (http_class * list exc_class)) = None
   ∨ @None (list (http_class * list exc_class)) = Some [])
  ∧ sample_raises (ReddwarfError "Forbidden" "not yours")
      sample_plain_request []
    = (Raised (ReddwarfError "Forbidden" "not yours"), [])
  ∧ ∃ f l',
      execute_action sample_format_exc
        (sample_raises (ReddwarfError "Forbidden" "not yours"))
        (Resource_model_exception_map None) true sample_plain_request []
      = (Returned (AFault f), l')
      ∧ status_int (wrapped_exc f) = 400.
Proof.
  split; [by left|]. split; [reflexivity|].
  destruct (resource_without_map_answers_400 sample_format_exc
              (sample_raises (ReddwarfError "Forbidden" "not yours"))
              None sample_plain_request [] [] "Forbidden" "not yours"
              (or_introl eq_refl) eq_refl) as (f & Hrun & _ & Hstatus & _).
  eexists f, _. split; [exact Hrun|exact Hstatus].
Defined.

(** X16.  When the path has no version and the header declares a version
    for which no application is mounted, the selected application is a fault
    whose document is [notAcceptable] with code 406 and the message
    [version not supported]. *)
Theorem unsupported_version_fault_document {App : Type}
    (urlmap : gmap string App) (req : Request) (N : string)
    (explanation : http_class → string) :
  ¬ has_version_segment (path req) →
  accept_version req = Some N →
  urlmap !! ("/v" +:+ N) = None →
  ∃ f,
    select_app urlmap req = FaultApp f
    ∧ fault_data explanation f
      = [("notAcceptable",
          PDict [("code", PInt 406);
                 ("message", PStr "version not supported")])].
Proof.
  intros Hurl%url_version_None_iff Hacc Hnone.
  unfold select_app. rewrite Hurl, Hacc, Hnone. eexists.
  split; [reflexivity|]. reflexivity.
Qed.

Lemma unsupported_version_fault_document_witness :
  ¬ has_version_segment (path sample_versioned_request)
  ∧ accept_version sample_versioned_request = Some "2"
  ∧ ({[ "/v1" := 1%nat ]} : gmap string nat) !! ("/v" +:+ "2") = None
  ∧ ∃ f,
      select_app ({[ "/v1" := 1%nat ]} : gmap string nat)
        sample_versioned_request = FaultApp f
      ∧ _get_error_name (wrapped_exc f) = "notAcceptable".
Proof.
  assert (¬ has_version_segment (path sample_versioned_request)) as Hno
    by (apply url_version_None_iff; vm_compute; reflexivity).
  assert (accept_version sample_versioned_request = Some "2") as Hacc
    by (vm_compute; reflexivity).
  assert (({[ "/v1" := 1%nat ]} : gmap string nat) !! ("/v" +:+ "2") = None)
    as Hnone by (vm_compute; reflexivity).
  split; [exact Hno|]. split; [exact Hacc|]. split; [exact Hnone|].
  destruct (unsupported_version_fault_document
              ({[ "/v1" := 1%nat ]} : gmap string nat)
              sample_versioned_request "2" (λ _, EmptyString) Hno Hacc Hnone)
    as (f & Hsel & Hdoc).
  exists f. split; [exact Hsel|].
  unfold fault_data in Hdoc. by injection Hdoc.
Defined.

(** ** The XML document and the order of the dictionary *)

Lemma dict_lookup_Some_NoDup {V} (d : list (string * V)) k v :
  NoDup (keys d) → dict_lookup d k = Some v ↔ (k, v) ∈ d.
Proof.
  induction d as [|[k' v'] d IH]; intros Hnd.
  - split; [done|by intros ?%elem_of_nil].
  - unfold keys in Hnd. cbn [fmap list_fmap fst] in Hnd.
    apply NoDup_cons in Hnd as [Hk' Hnd].
    rewrite dict_lookup_cons, elem_of_cons.
    destruct (decide (k' = k)) as [->|Hne].
    + split; [intros [= ->]; by left|].
      intros [[= ->]|Hin]; [done|].
      destruct Hk'. apply list_elem_of_fmap. by exists (k, v).
    + rewrite (IH Hnd). split; [by right|]. by intros [[= ? ?]|?].
Qed.

Lemma dict_lookup_perm {V} (d d' : list (string * V)) k :
  NoDup (keys d) → d ≡ₚ d' → dict_lookup d' k = dict_lookup d k.
Proof.
  intros Hnd Hperm.
  assert (NoDup (keys d')) as Hnd' by (unfold keys; by rewrite <- Hperm).
  destruct (dict_lookup d k) as [v|] eqn:Hl.
  - apply dict_lookup_Some_NoDup in Hl; [|done].
    apply dict_lookup_Some_NoDup; [done|]. by rewrite <- Hperm.
  - destruct (dict_lookup d' k) as [v'|] eqn:Hl'; [|done].
    apply dict_lookup_Some_NoDup in Hl'; [|done].
    rewrite <- Hperm in Hl'. apply dict_lookup_Some_NoDup in Hl'; [|done].
    congruence.
Qed.

Section XMLOrder.

Import ReddwarfXMLDictSerializer.

Variable py_str : pyval → string.
Variable py_repr : dict → string.
Variable singular : metadata → string → string.
Variable to_xml_string : xml_node → string.

(** X17.  For a mapping with distinct keys and exactly one key other than
    [links], the document does not depend on the order in which the
    dictionary is walked. *)
Theorem xml_default_ignores_key_order (self_metadata : metadata)
    (data data' : dict) (root_key : string) (l : log) :
  NoDup (keys data) →
  data ≡ₚ data' →
  non_links_keys data = [root_key] →
  default py_str py_repr singular to_xml_string self_metadata data' l
  = default py_str py_repr singular to_xml_string self_metadata data l.
Proof.
  intros Hnd Hperm Hroot.
  assert (non_links_keys data' = [root_key]) as Hroot'.
  { apply Permutation_singleton_r. rewrite <- Hroot.
    unfold non_links_keys, keys. by rewrite Hperm. }
  assert (bool_decide ("links" ∈ keys data')
          = bool_decide ("links" ∈ keys data)) as Hlinks.
  { apply bool_decide_ext. unfold keys. by rewrite Hperm. }
  unfold default, bind.
  rewrite !default_loop_from_start, Hroot, Hroot', Hlinks.
  unfold dict_getitem. by rewrite !(dict_lookup_perm data data' _ Hnd Hperm).
Qed.

End XMLOrder.

Lemma xml_default_ignores_key_order_witness :
  NoDup (keys sample_plain_root)
  ∧ sample_plain_root ≡ₚ reverse sample_plain_root
  ∧ non_links_keys sample_plain_root = ["instance"]
  ∧ ReddwarfXMLDictSerializer.default sample_py_str sample_py_repr
      sample_singular sample_to_xml_string (Metadata [] [])
      (reverse sample_plain_root) []
    = ReddwarfXMLDictSerializer.default sample_py_str sample_py_repr
        sample_singular sample_to_xml_string (Metadata [] [])
        sample_plain_root [].
Proof.
  assert (NoDup (keys sample_plain_root)) as Hnd.
  { change (keys sample_plain_root) with ["links"; "instance"].
    apply NoDup_cons. split; [|apply NoDup_singleton].
    by intros [=]%list_elem_of_singleton. }
  assert (sample_plain_root ≡ₚ reverse sample_plain_root) as Hperm
    by (symmetry; apply reverse_Permutation).
  split; [exact Hnd|]. split; [exact Hperm|]. split; [reflexivity|].
  exact (xml_default_ignores_key_order sample_py_str sample_py_repr
           sample_singular sample_to_xml_string (Metadata [] [])
           sample_plain_root (reverse sample_plain_root) "instance" []
           Hnd Hperm eq_refl).
Defined.

(** ** Faults and the extension of the request; the metadata of the
    serializer *)

Lemma best_match_content_type_extension best_match req prefix ext :
  ext ∈ ["json"; "xml"] →
  path req = prefix +:+ "." +:+ ext →
  best_match_content_type best_match req = "application/" +:+ ext.
Proof.
  intros Hext Hpath. unfold best_match_content_type. rewrite Hpath.
  assert (PyStr.mem "." ext = false) as Hno.
  { apply list_elem_of_In in Hext. simpl in Hext.
    destruct Hext as [<-|[<-|[]]]; reflexivity. }
  change (prefix +:+ "." +:+ ext) with (prefix +:+ String "." ext).
  rewrite (rsplit1_app _ _ _ Hno). simpl.
  by rewrite bool_decide_true.
Qed.

Section FaultExtension.

Variable best_match : option string → list string → option string.
Variable explanation : http_class → string.
Variable XMLDictSerializer_serialize : metadata → dict → string → string.
Variable JSONDictSerializer_serialize : dict → string → string.

(** X18.  A fault is rendered in the type of the extension of the request
    path, whatever the [Accept] header asks for: as XML, by the serializer
    that has [code] registered as attribute of the fault element, for a path
    ending in [.xml], and as JSON for a path ending in [.json]. *)
Theorem fault_follows_request_extension (self : Fault) (req : Request)
    (prefix : string) (l : log) :
  (path req = prefix +:+ "." +:+ "xml" →
   Fault_call best_match explanation XMLDictSerializer_serialize
     JSONDictSerializer_serialize self req l
   = (Returned
        {| exc_cls := exc_cls (wrapped_exc self);
           detail := detail (wrapped_exc self);
           body := XMLDictSerializer_serialize
                     (Metadata [(_get_error_name (wrapped_exc self),
                                 AttrStr "code")] [])
                     (fault_data explanation self) "application/xml";
           content_type := Some "application/xml" |}, l))
  ∧ (path req = prefix +:+ "." +:+ "json" →
     Fault_call best_match explanation XMLDictSerializer_serialize
       JSONDictSerializer_serialize self req l
     = (Returned
          {| exc_cls := exc_cls (wrapped_exc self);
             detail := detail (wrapped_exc self);
             body := JSONDictSerializer_serialize
                       (fault_data explanation self) "application/json";
             content_type := Some "application/json" |}, l)).
Proof.
  split; intros Hpath; unfold Fault_call.
  - rewrite (best_match_content_type_extension _ _ prefix "xml");
      [reflexivity|by right; left|done].
  - rewrite (best_match_content_type_extension _ _ prefix "json");
      [reflexivity|by left|done].
Qed.

End FaultExtension.

Lemma fault_follows_request_extension_witness :
  path sample_xml_request = "/v1/instances" +:+ "." +:+ "xml"
  ∧ ∃ e,
      Fault_call sample_best_match (λ _, "explanation")
        sample_xml_serialize sample_json_serialize
        (MkFault (http_new HTTPNotFound None)) sample_xml_request []
      = (Returned e, [])
      ∧ content_type e = Some "application/xml"
      ∧ body e = "<fault/>".
Proof.
  split; [reflexivity|].
  eexists. split.
  - exact (proj1 (fault_follows_request_extension sample_best_match
             (λ _, "explanation") sample_xml_serialize sample_json_serialize
             (MkFault (http_new HTTPNotFound None)) sample_xml_request
             "/v1/instances" []) eq_refl).
  - split; reflexivity.
Defined.

Section XMLMetadata.

Import ReddwarfXMLDictSerializer.

Variable py_str : pyval → string.
Variable singular : metadata → string → string.

(** X19.  The [attributes] entry of the metadata handed to [_to_xml_node]
    has no effect on the node: it is replaced by the table of the module
    before it is read. *)
Theorem to_xml_node_ignores_given_attributes
    (metadata1 metadata2 : metadata) (nodename : string) (data : pyval) :
  plurals metadata1 = plurals metadata2 →
  _to_xml_node py_str singular metadata1 nodename data
  = _to_xml_node py_str singular metadata2 nodename data.
Proof.
  intros Hpl. destruct data; cbn [_to_xml_node]; by rewrite ?Hpl.
Qed.

End XMLMetadata.

Lemma to_xml_node_ignores_given_attributes_witness :
  plurals (Metadata [("instance", AttrDict ["volume"])] [])
  = plurals (Metadata [] [])
  ∧ ReddwarfXMLDictSerializer._to_xml_node sample_py_str sample_singular
      (Metadata [("instance", AttrDict ["volume"])] []) "instance"
      (PDict [("id", PStr "1"); ("volume", PStr "2")])
    = ReddwarfXMLDictSerializer._to_xml_node sample_py_str sample_singular
        (Metadata [] []) "instance"
        (PDict [("id", PStr "1"); ("volume", PStr "2")]).
Proof.
  split; [reflexivity|].
  exact (to_xml_node_ignores_given_attributes sample_py_str sample_singular
           _ _ "instance" _ eq_refl).
Defined.
